(** * The statement-import wizard of the budget tracker

    A shallow embedding of the three-phase bank-statement import:

    - [JS]              the JavaScript values the components rely on;
    - [Api]             the three request builders of [expenseAPI]
                        (services/api.js);
    - [PasswordDialog]  the modal asking for a PDF password;
    - [DateRangePicker] the modal choosing the period to import;
    - [UploadView]      the wizard component: its seventeen [useState]
                        cells, its event handlers, what it renders, and the
                        transition system these make up;
    - [Backend]         the session protocol of the server, which is not
                        among the sources and is modelled from the
                        specification.

    React state is modelled by explicit state passing.  A handler is a
    block of setter calls and side effects; network calls, timers and the
    reset of the file input are recorded in an effect trace.  An [async]
    handler is cut at its [await]: the part before it issues the request,
    the part after it consumes the outcome of the request (resolved with
    data, or rejected with an error).  In the transition system a handler
    runs to its end before the next event. *)

From Stdlib Require Import ZArith Ascii String Bool List Lia.
From stdpp Require Import base option list gmap strings.
Import ListNotations.

Local Open Scope Z_scope.

(** ** JavaScript values used by the components *)

Module JS.

(** Truthiness of a string: only the empty string is falsy. *)
Definition truthy (s : string) : bool :=
  match s with
  | EmptyString => false
  | String _ _ => true
  end.

(** [a || b] where [a] is a possibly absent string and [b] a string. *)
Definition or_else (a : option string) (b : string) : string :=
  match a with
  | Some s => if truthy s then s else b
  | None => b
  end.

Definition is_upper (c : ascii) : bool :=
  (65 <=? Z.of_nat (nat_of_ascii c)) && (Z.of_nat (nat_of_ascii c) <=? 90).

(** [String.prototype.toLowerCase] on the ASCII range.  Strings are byte
    strings (UTF-8); bytes from 128 up are left alone.  No code point
    outside ASCII lower-cases to a dot or to a letter of an accepted
    extension, so the acceptance test of a file name is not affected. *)
Definition lower_char (c : ascii) : ascii :=
  if is_upper c then ascii_of_nat (nat_of_ascii c + 32) else c.

Fixpoint toLowerCase (s : string) : string :=
  match s with
  | EmptyString => EmptyString
  | String c r => String (lower_char c) (toLowerCase r)
  end.

(** White space removed by [String.prototype.trim] (ASCII range: TAB, LF,
    VT, FF, CR and space). *)
Definition is_space (c : ascii) : bool :=
  let n := Z.of_nat (nat_of_ascii c) in
  ((9 <=? n) && (n <=? 13)) || (n =? 32).

(** Truthiness of [s.trim()]: some character of [s] is not white space. *)
Fixpoint trim_truthy (s : string) : bool :=
  match s with
  | EmptyString => false
  | String c r => negb (is_space c) || trim_truthy r
  end.

(** A settled promise. *)
Inductive outcome (A E : Type) : Type :=
| Resolved (data : A)
| Rejected (err : E).
Arguments Resolved {A E} data.
Arguments Rejected {A E} err.

End JS.

(** ** services/api.js : [expenseAPI] *)

Module Api.

(** The browser's [File] object; the wizard reads its name and size. *)
Record File : Type := mkFile { name : string; size : Z }.

Inductive form_value : Type :=
| FText (s : string)
| FFile (f : File).

(** [FormData]: the fields in the order they were appended. *)
Definition FormData : Type := list (string * form_value).

Definition append (k : string) (v : form_value) (fd : FormData) : FormData :=
  fd ++ [(k, v)].

Definition has (k : string) (fd : FormData) : bool :=
  existsb (fun kv => String.eqb (fst kv) k) fd.

Fixpoint get (k : string) (fd : FormData) : option form_value :=
  match fd with
  | [] => None
  | (k', v) :: r => if String.eqb k' k then Some v else get k r
  end.

(** The requests the wizard can send.  A session id is whatever the
    [sessionId] cell holds, so it can be [null]. *)
Inductive request : Type :=
| PostUploadStatement (body : FormData)
| PostSelectDateRange (session_id : option string) (start_date end_date : string)
| PostImportTransactions (session_id : option string) (clarifications : gmap Z string).

(** [uploadStatement: async (file, password = null, clearPrevious = true)].
    An omitted argument is [None]; the default values are those of the
    parameter list. *)
Definition uploadStatement (file : File) (password : option string)
    (clearPrevious : option bool) : request :=
  let clearPrevious := default true clearPrevious in
  let formData : FormData := [] in
  let formData := append "file" (FFile file) formData in
  let formData :=
    append "clear_previous" (FText (if clearPrevious then "true" else "false")) formData in
  let formData :=
    match password with
    | Some p => if JS.truthy p then append "password" (FText p) formData else formData
    | None => formData
    end in
  PostUploadStatement formData.

Definition selectDateRange (sessionId : option string) (startDate endDate : string) : request :=
  PostSelectDateRange sessionId startDate endDate.

(** [importTransactions: async (sessionId, clarifications = {})]. *)
Definition importTransactions (sessionId : option string)
    (clarifications : option (gmap Z string)) : request :=
  PostImportTransactions sessionId (default ∅ clarifications).

Definition body_of (r : request) : FormData :=
  match r with
  | PostUploadStatement b => b
  | _ => []
  end.

End Api.

(** ** PasswordDialog.jsx *)

Module PasswordDialog.

(** The props the component destructures: [{ isOpen, onSubmit, onCancel,
    error }].  [UploadView] also passes [loading]; it is kept in the
    record because the caller supplies it, and no definition below reads
    it because the component does not. *)
Record Props : Type := mkProps {
  isOpen : bool;
  error : string;
  loading : bool
}.

(** Local state: [const [password, setPassword] = useState('')]. *)
Definition LocalState : Type := string.

(** [if (!isOpen) return null]. *)
Definition rendered (p : Props) : bool := isOpen p.

(** [{error && (<div ...>{error}</div>)}]: the message box of the dialog. *)
Definition error_box (p : Props) : option string :=
  if rendered p && JS.truthy (error p) then Some (error p) else None.

(** The Unlock button: [disabled={!password.trim()}]. *)
Definition unlock_disabled (p : Props) (password : LocalState) : bool :=
  negb (JS.trim_truthy password).

(** [handleSubmit]: [if (password.trim()) onSubmit(password)].  The result
    is the argument [onSubmit] is called with, if it is called. *)
Definition handleSubmit (p : Props) (password : LocalState) : option string :=
  if JS.trim_truthy password then Some password else None.

End PasswordDialog.

(** ** DateRangePicker.jsx *)

Module DateRangePicker.

Record SuggestedRange : Type := mkSuggestedRange {
  label : string;
  start_date : string;
  end_date : string;
  days : Z
}.

Record DateRange : Type := mkDateRange {
  min_date : string;
  max_date : string;
  total_days : Z;
  suggested_ranges : list SuggestedRange
}.

Record Props : Type := mkProps {
  dateRange : DateRange;
  loading : bool   (* [loading = false] when the prop is not passed *)
}.

Record LocalState : Type := mkLocal {
  selectedRangeIndex : nat;
  customMode : bool;
  customStart : string;
  customEnd : string
}.

Definition initial : LocalState :=
  {| selectedRangeIndex := 0%nat; customMode := false;
     customStart := EmptyString; customEnd := EmptyString |}.

(** [handleSubmit]: the pair [onSelect] is called with, if it is called.
    Reading [start_date] of a missing entry of [suggested_ranges] throws,
    and then [onSelect] is not called either. *)
Definition handleSubmit (p : Props) (l : LocalState) : option (string * string) :=
  if customMode l then
    if JS.truthy (customStart l) && JS.truthy (customEnd l)
    then Some (customStart l, customEnd l)
    else None
  else
    match suggested_ranges (dateRange p) !! selectedRangeIndex l with
    | Some selected => Some (start_date selected, end_date selected)
    | None => None
    end.

(** Cancel: [disabled={loading}]. *)
Definition cancel_disabled (p : Props) (l : LocalState) : bool := loading p.

(** Apply Filter:
    [disabled={loading || (customMode && (!customStart || !customEnd))}]. *)
Definition apply_disabled (p : Props) (l : LocalState) : bool :=
  loading p
  || (customMode l && (negb (JS.truthy (customStart l)) || negb (JS.truthy (customEnd l)))).

End DateRangePicker.

(** ** UploadView.jsx *)

Module UploadView.

Import JS.

(** *** Data received from the backend *)

Record PreviewRow : Type := mkPreviewRow {
  row_date : string;
  row_description : string;
  row_amount : Z   (* carried as received, in minor units *)
}.

(** One entry of [ambiguous_items]. *)
Record AmbiguousItem : Type := mkAmbiguousItem {
  index : Z;
  description : string;
  amount : Z;
  date : string;
  confidence : string;
  reasoning : string;
  alternatives : list string;
  suggested_category : string;
  transaction_count : Z
}.

(** Body of the answer to [/api/upload-statement].  A field the answer
    does not carry reads as [undefined], here [None]. *)
Record UploadResponse : Type := mkUploadResponse {
  status : string;
  session_id : option string;
  file_type : option string;
  date_range : option DateRangePicker.DateRange;
  preview_rows : list PreviewRow
}.

(** Body of the answer to [/api/select-date-range]. *)
Record SelectResponse : Type := mkSelectResponse {
  needs_clarification : bool;
  ambiguous_count : Z;
  ambiguous_items : list AmbiguousItem
}.

(** Body of the answer to [/api/import-transactions]. *)
Record ImportResult : Type := mkImportResult {
  imported : Z;
  total : Z;
  message : string
}.

(** A rejected request: [err.response?.data] with its two optional
    texts. *)
Record ErrorData : Type := mkErrorData {
  data_message : option string;
  data_error : option string
}.

Record ApiError : Type := mkApiError { response : option ErrorData }.

(** [err.response?.data?.message || err.response?.data?.error || fallback] *)
Definition errorMessage (err : ApiError) (fallback : string) : string :=
  or_else (response err ≫= data_message)
          (or_else (response err ≫= data_error) fallback).

(** *** Component state *)

(** The values listed for [uploadPhase]:
    ['upload' | 'password' | 'date_range' | 'clarify']. *)
Inductive Phase : Type :=
| phase_upload
| phase_password
| phase_date_range
| phase_clarify.

Definition Phase_eqb (a b : Phase) : bool :=
  match a, b with
  | phase_upload, phase_upload
  | phase_password, phase_password
  | phase_date_range, phase_date_range
  | phase_clarify, phase_clarify => true
  | _, _ => false
  end.

(** The [useState] cells, in the order of the source. *)
Record State : Type := mkState {

  uploadPhase : Phase;
  file : option Api.File;
  fileType : option string;
  uploading : bool;
  error : string;
  result : option ImportResult;
  sessionId : option string;
  dateRange : option DateRangePicker.DateRange;
  preview : list PreviewRow;
  showPasswordDialog : bool;
  passwordError : string;
  showDateRangePicker : bool;
  showClarificationDialog : bool;
  ambiguousItems : list AmbiguousItem;
  clarifications : gmap Z string;
  processingClarifications : bool;
  clearPrevious : bool

}.

(** The state of the first render. *)
Definition initial : State :=
  {| uploadPhase := phase_upload;
     file := None;
     fileType := None;
     uploading := false;
     error := EmptyString;
     result := None;
     sessionId := None;
     dateRange := None;
     preview := [];
     showPasswordDialog := false;
     passwordError := EmptyString;
     showDateRangePicker := false;
     showClarificationDialog := false;
     ambiguousItems := [];
     clarifications := ∅;
     processingClarifications := false;
     clearPrevious := true |}.

(** The setters returned by [useState]. *)

Definition setUploadPhase (v : Phase) (s : State) : State :=
  {| uploadPhase := v; file := file s; fileType := fileType s;
     uploading := uploading s; error := error s; result := result s;
     sessionId := sessionId s; dateRange := dateRange s; preview := preview s;
     showPasswordDialog := showPasswordDialog s; passwordError := passwordError s;
     showDateRangePicker := showDateRangePicker s;
     showClarificationDialog := showClarificationDialog s;
     ambiguousItems := ambiguousItems s; clarifications := clarifications s;
     processingClarifications := processingClarifications s;
     clearPrevious := clearPrevious s |}.

Definition setFile (v : option Api.File) (s : State) : State :=
  {| uploadPhase := uploadPhase s; file := v; fileType := fileType s;
     uploading := uploading s; error := error s; result := result s;
     sessionId := sessionId s; dateRange := dateRange s; preview := preview s;
     showPasswordDialog := showPasswordDialog s; passwordError := passwordError s;
     showDateRangePicker := showDateRangePicker s;
     showClarificationDialog := showClarificationDialog s;
     ambiguousItems := ambiguousItems s; clarifications := clarifications s;
     processingClarifications := processingClarifications s;
     clearPrevious := clearPrevious s |}.

Definition setFileType (v : option string) (s : State) : State :=
  {| uploadPhase := uploadPhase s; file := file s; fileType := v;
     uploading := uploading s; error := error s; result := result s;
     sessionId := sessionId s; dateRange := dateRange s; preview := preview s;
     showPasswordDialog := showPasswordDialog s; passwordError := passwordError s;
     showDateRangePicker := showDateRangePicker s;
     showClarificationDialog := showClarificationDialog s;
     ambiguousItems := ambiguousItems s; clarifications := clarifications s;
     processingClarifications := processingClarifications s;
     clearPrevious := clearPrevious s |}.

Definition setUploading (v : bool) (s : State) : State :=
  {| uploadPhase := uploadPhase s; file := file s; fileType := fileType s;
     uploading := v; error := error s; result := result s; sessionId := sessionId s;
     dateRange := dateRange s; preview := preview s;
     showPasswordDialog := showPasswordDialog s; passwordError := passwordError s;
     showDateRangePicker := showDateRangePicker s;
     showClarificationDialog := showClarificationDialog s;
     ambiguousItems := ambiguousItems s; clarifications := clarifications s;
     processingClarifications := processingClarifications s;
     clearPrevious := clearPrevious s |}.

Definition setError (v : string) (s : State) : State :=
  {| uploadPhase := uploadPhase s; file := file s; fileType := fileType s;
     uploading := uploading s; error := v; result := result s;
     sessionId := sessionId s; dateRange := dateRange s; preview := preview s;
     showPasswordDialog := showPasswordDialog s; passwordError := passwordError s;
     showDateRangePicker := showDateRangePicker s;
     showClarificationDialog := showClarificationDialog s;
     ambiguousItems := ambiguousItems s; clarifications := clarifications s;
     processingClarifications := processingClarifications s;
     clearPrevious := clearPrevious s |}.

Definition setResult (v : option ImportResult) (s : State) : State :=
  {| uploadPhase := uploadPhase s; file := file s; fileType := fileType s;
     uploading := uploading s; error := error s; result := v;
     sessionId := sessionId s; dateRange := dateRange s; preview := preview s;
     showPasswordDialog := showPasswordDialog s; passwordError := passwordError s;
     showDateRangePicker := showDateRangePicker s;
     showClarificationDialog := showClarificationDialog s;
     ambiguousItems := ambiguousItems s; clarifications := clarifications s;
     processingClarifications := processingClarifications s;
     clearPrevious := clearPrevious s |}.

Definition setSessionId (v : option string) (s : State) : State :=
  {| uploadPhase := uploadPhase s; file := file s; fileType := fileType s;
     uploading := uploading s; error := error s; result := result s; sessionId := v;
     dateRange := dateRange s; preview := preview s;
     showPasswordDialog := showPasswordDialog s; passwordError := passwordError s;
     showDateRangePicker := showDateRangePicker s;
     showClarificationDialog := showClarificationDialog s;
     ambiguousItems := ambiguousItems s; clarifications := clarifications s;
     processingClarifications := processingClarifications s;
     clearPrevious := clearPrevious s |}.

Definition setDateRange (v : option DateRangePicker.DateRange) (s : State) : State :=
  {| uploadPhase := uploadPhase s; file := file s; fileType := fileType s;
     uploading := uploading s; error := error s; result := result s;
     sessionId := sessionId s; dateRange := v; preview := preview s;
     showPasswordDialog := showPasswordDialog s; passwordError := passwordError s;
     showDateRangePicker := showDateRangePicker s;
     showClarificationDialog := showClarificationDialog s;
     ambiguousItems := ambiguousItems s; clarifications := clarifications s;
     processingClarifications := processingClarifications s;
     clearPrevious := clearPrevious s |}.

Definition setPreview (v : list PreviewRow) (s : State) : State :=
  {| uploadPhase := uploadPhase s; file := file s; fileType := fileType s;
     uploading := uploading s; error := error s; result := result s;
     sessionId := sessionId s; dateRange := dateRange s; preview := v;
     showPasswordDialog := showPasswordDialog s; passwordError := passwordError s;
     showDateRangePicker := showDateRangePicker s;
     showClarificationDialog := showClarificationDialog s;
     ambiguousItems := ambiguousItems s; clarifications := clarifications s;
     processingClarifications := processingClarifications s;
     clearPrevious := clearPrevious s |}.

Definition setShowPasswordDialog (v : bool) (s : State) : State :=
  {| uploadPhase := uploadPhase s; file := file s; fileType := fileType s;
     uploading := uploading s; error := error s; result := result s;
     sessionId := sessionId s; dateRange := dateRange s; preview := preview s;
     showPasswordDialog := v; passwordError := passwordError s;
     showDateRangePicker := showDateRangePicker s;
     showClarificationDialog := showClarificationDialog s;
     ambiguousItems := ambiguousItems s; clarifications := clarifications s;
     processingClarifications := processingClarifications s;
     clearPrevious := clearPrevious s |}.

Definition setPasswordError (v : string) (s : State) : State :=
  {| uploadPhase := uploadPhase s; file := file s; fileType := fileType s;
     uploading := uploading s; error := error s; result := result s;
     sessionId := sessionId s; dateRange := dateRange s; preview := preview s;
     showPasswordDialog := showPasswordDialog s; passwordError := v;
     showDateRangePicker := showDateRangePicker s;
     showClarificationDialog := showClarificationDialog s;
     ambiguousItems := ambiguousItems s; clarifications := clarifications s;
     processingClarifications := processingClarifications s;
     clearPrevious := clearPrevious s |}.

Definition setShowDateRangePicker (v : bool) (s : State) : State :=
  {| uploadPhase := uploadPhase s; file := file s; fileType := fileType s;
     uploading := uploading s; error := error s; result := result s;
     sessionId := sessionId s; dateRange := dateRange s; preview := preview s;
     showPasswordDialog := showPasswordDialog s; passwordError := passwordError s;
     showDateRangePicker := v; showClarificationDialog := showClarificationDialog s;
     ambiguousItems := ambiguousItems s; clarifications := clarifications s;
     processingClarifications := processingClarifications s;
     clearPrevious := clearPrevious s |}.

Definition setShowClarificationDialog (v : bool) (s : State) : State :=
  {| uploadPhase := uploadPhase s; file := file s; fileType := fileType s;
     uploading := uploading s; error := error s; result := result s;
     sessionId := sessionId s; dateRange := dateRange s; preview := preview s;
     showPasswordDialog := showPasswordDialog s; passwordError := passwordError s;
     showDateRangePicker := showDateRangePicker s; showClarificationDialog := v;
     ambiguousItems := ambiguousItems s; clarifications := clarifications s;
     processingClarifications := processingClarifications s;
     clearPrevious := clearPrevious s |}.

Definition setAmbiguousItems (v : list AmbiguousItem) (s : State) : State :=
  {| uploadPhase := uploadPhase s; file := file s; fileType := fileType s;
     uploading := uploading s; error := error s; result := result s;
     sessionId := sessionId s; dateRange := dateRange s; preview := preview s;
     showPasswordDialog := showPasswordDialog s; passwordError := passwordError s;
     showDateRangePicker := showDateRangePicker s;
     showClarificationDialog := showClarificationDialog s; ambiguousItems := v;
     clarifications := clarifications s;
     processingClarifications := processingClarifications s;
     clearPrevious := clearPrevious s |}.

Definition setClarifications (v : gmap Z string) (s : State) : State :=
  {| uploadPhase := uploadPhase s; file := file s; fileType := fileType s;
     uploading := uploading s; error := error s; result := result s;
     sessionId := sessionId s; dateRange := dateRange s; preview := preview s;
     showPasswordDialog := showPasswordDialog s; passwordError := passwordError s;
     showDateRangePicker := showDateRangePicker s;
     showClarificationDialog := showClarificationDialog s;
     ambiguousItems := ambiguousItems s; clarifications := v;
     processingClarifications := processingClarifications s;
     clearPrevious := clearPrevious s |}.

Definition setProcessingClarifications (v : bool) (s : State) : State :=
  {| uploadPhase := uploadPhase s; file := file s; fileType := fileType s;
     uploading := uploading s; error := error s; result := result s;
     sessionId := sessionId s; dateRange := dateRange s; preview := preview s;
     showPasswordDialog := showPasswordDialog s; passwordError := passwordError s;
     showDateRangePicker := showDateRangePicker s;
     showClarificationDialog := showClarificationDialog s;
     ambiguousItems := ambiguousItems s; clarifications := clarifications s;
     processingClarifications := v; clearPrevious := clearPrevious s |}.

Definition setClearPrevious (v : bool) (s : State) : State :=
  {| uploadPhase := uploadPhase s; file := file s; fileType := fileType s;
     uploading := uploading s; error := error s; result := result s;
     sessionId := sessionId s; dateRange := dateRange s; preview := preview s;
     showPasswordDialog := showPasswordDialog s; passwordError := passwordError s;
     showDateRangePicker := showDateRangePicker s;
     showClarificationDialog := showClarificationDialog s;
     ambiguousItems := ambiguousItems s; clarifications := clarifications s;
     processingClarifications := processingClarifications s; clearPrevious := v |}.


(** *** Props and side effects *)

(** A function handed down by the host; only its identity matters. *)
Record HostFn : Type := mkHostFn { host_fn : nat }.

(** [UploadView({ onUploadComplete })]; a prop that is not passed is
    [undefined], here [None]. *)
Record Props : Type := mkProps { onUploadComplete : option HostFn }.

Inductive effect : Type :=
| Request (r : Api.request)                 (* a call of [expenseAPI] *)
| SetTimeout (callback : HostFn) (ms : Z)   (* [setTimeout(() => callback(), ms)] *)
| ResetFileInput.                           (* [...getElementById('file-input').value = ''] *)

Definition is_request (e : effect) : bool :=
  match e with
  | Request _ => true
  | _ => false
  end.

Definition requests (l : list effect) : list effect := filter (fun e => is_request e = true) l.

(** A block of statements: the state it leaves and the effects it had. *)
Definition Act : Type := State → State * list effect.

Definition upd (f : State → State) : Act := fun s => (f s, []).
Definition emit (e : effect) : Act := fun s => (s, [e]).
Definition skip : Act := fun s => (s, []).
Definition seq (a b : Act) : Act :=
  fun s => let '(s1, e1) := a s in let '(s2, e2) := b s1 in (s2, e1 ++ e2).

Notation "a >> b" := (seq a b) (at level 65, right associativity).

(** *** handleFileChange *)

Definition allowedExtensions : list string := [".csv"; ".pdf"; ".xlsx"; ".xls"].

Definition is_dot (c : ascii) : bool := Ascii.eqb c "."%char.

Fixpoint no_dot (s : string) : bool :=
  match s with
  | EmptyString => true
  | String c r => negb (is_dot c) && no_dot r
  end.

(** [s.match(/\.[^.]+$/)?.[0]]: the match at the leftmost position where
    the pattern fits, that is a dot followed by one or more characters
    other than a dot, up to the end of [s]. *)
Fixpoint match_extension (s : string) : option string :=
  match s with
  | EmptyString => None
  | String c r =>
      if is_dot c && truthy r && no_dot r then Some s else match_extension r
  end.

(** [l.includes(x)] for a possibly [undefined] [x]. *)
Definition includes (l : list string) (x : option string) : bool :=
  match x with
  | Some e => existsb (String.eqb e) l
  | None => false
  end.

(** [selectedFile] is [e.target.files[0]], [undefined] when the chooser
    was dismissed. *)
Definition handleFileChange (selectedFile : option Api.File) : Act :=
  let fileExt := selectedFile ≫= (fun f => match_extension (toLowerCase (Api.name f))) in
  if bool_decide (is_Some selectedFile) && includes allowedExtensions fileExt then
    upd (setFile selectedFile) >>
    upd (setError EmptyString) >>
    upd (setResult None) >>
    upd (setUploadPhase phase_upload) >>
    upd (setSessionId None) >>
    upd (setDateRange None) >>
    upd (setPreview []) >>
    upd (setShowPasswordDialog false) >>
    upd (setShowDateRangePicker false) >>
    upd (setShowClarificationDialog false) >>
    upd (setAmbiguousItems []) >>
    upd (setClarifications ∅)
  else
    upd (setError "Please select a valid file (CSV, PDF, or Excel)") >>
    upd (setFile None).

(** *** Phase 1: handleUpload *)

(** Up to the [await]: the guard on [file], the three resets and the
    request, if one is sent. *)
Definition handleUpload_begin (password : option string) (s : State)
    : State * option Api.request :=
  match file s with
  | None => (setError "Please select a file first" s, None)
  | Some f =>
      (setPasswordError EmptyString (setError EmptyString (setUploading true s)),
       Some (Api.uploadStatement f password (Some (clearPrevious s))))
  end.

(** After the [await]: the [try] body, [catch] and [finally]. *)
Definition handleUpload_resume (o : outcome UploadResponse ApiError) : Act :=
  match o with
  | Resolved data =>
      if String.eqb (status data) "password_required" then
        upd (setShowPasswordDialog true) >>
        upd (setUploading false) >>
        (* return; finally *)
        upd (setUploading false)
      else if String.eqb (status data) "extracted" then
        upd (setSessionId (session_id data)) >>
        upd (setFileType (file_type data)) >>
        upd (setDateRange (date_range data)) >>
        upd (setPreview (preview_rows data)) >>
        upd (setUploadPhase phase_date_range) >>
        upd (setShowPasswordDialog false) >>
        upd (setShowDateRangePicker true) >>
        upd (setUploading false)
      else
        upd (setUploading false)
  | Rejected err =>
      upd (setError (errorMessage err "Failed to upload file")) >>
      upd (setUploading false)
  end.

(** The whole call, given how the request settles. *)
Definition handleUpload (password : option string)
    (o : outcome UploadResponse ApiError) : Act :=
  fun s =>
    match handleUpload_begin password s with
    | (s1, Some r) => (emit (Request r) >> handleUpload_resume o) s1
    | (s1, None) => (s1, [])
    end.

Definition handlePasswordSubmit (password : string) : outcome UploadResponse ApiError → Act :=
  handleUpload (Some password).

Definition handlePasswordCancel : Act :=
  upd (setShowPasswordDialog false) >>
  upd (setFile None) >>
  emit ResetFileInput.

(** *** Phase 3: handleImport *)

(** [sid] is the [sessionId] of the render whose closure runs. *)
Definition handleImport_begin (sid : option string) (clarificationsData : gmap Z string)
    (s : State) : State * Api.request :=
  (setError EmptyString (setProcessingClarifications true s),
   Api.importTransactions sid (Some clarificationsData)).

Definition handleImport_resume (props : Props) (o : outcome ImportResult ApiError) : Act :=
  match o with
  | Resolved data =>
      upd (setResult (Some data)) >>
      upd (setShowClarificationDialog false) >>
      upd (setAmbiguousItems []) >>
      upd (setClarifications ∅) >>
      upd (setSessionId None) >>
      upd (setFile None) >>
      upd (setUploadPhase phase_upload) >>
      emit ResetFileInput >>
      match onUploadComplete props with
      | Some callback =>
          if 0 <? imported data then emit (SetTimeout callback 2000) else skip
      | None => skip
      end >>
      upd (setProcessingClarifications false)
  | Rejected err =>
      upd (setError (errorMessage err "Failed to import transactions")) >>
      upd (setProcessingClarifications false)
  end.

Definition handleImport (props : Props) (sid : option string)
    (clarificationsData : gmap Z string) (o : outcome ImportResult ApiError) : Act :=
  fun s =>
    let '(s1, r) := handleImport_begin sid clarificationsData s in
    (emit (Request r) >> handleImport_resume props o) s1.

Definition handleClarificationChange (index : Z) (category : string) : Act :=
  fun s => (setClarifications (<[index := category]> (clarifications s)) s, []).

Definition handleSubmitClarifications (props : Props)
    (o : outcome ImportResult ApiError) : Act :=
  fun s => handleImport props (sessionId s) (clarifications s) o s.

Definition handleCancelClarification : Act :=
  upd (setShowClarificationDialog false) >>
  upd (setAmbiguousItems []) >>
  upd (setClarifications ∅) >>
  upd (setSessionId None) >>
  upd (setFile None) >>
  upd (setUploadPhase phase_upload) >>
  emit ResetFileInput.

(** *** Phase 2: handleDateRangeSelect *)

Definition handleDateRangeSelect_begin (startDate endDate : string) (s : State)
    : State * Api.request :=
  (setError EmptyString (setUploading true s),
   Api.selectDateRange (sessionId s) startDate endDate).

(** The [forEach] that fills [initialClarifications], starting from [{}]. *)
Definition initialClarifications (items : list AmbiguousItem) : gmap Z string :=
  fold_left (fun acc item => <[index item := suggested_category item]> acc) items ∅.

(** [oi] is how the import request settles, should one be sent. *)
Definition handleDateRangeSelect_resume (props : Props) (sid : option string)
    (o : outcome SelectResponse ApiError) (oi : outcome ImportResult ApiError) : Act :=
  match o with
  | Resolved data =>
      if needs_clarification data then
        upd (setAmbiguousItems (ambiguous_items data)) >>
        upd (setClarifications (initialClarifications (ambiguous_items data))) >>
        upd (setUploadPhase phase_clarify) >>
        upd (setShowDateRangePicker false) >>
        upd (setShowClarificationDialog true) >>
        upd (setUploading false)
      else
        handleImport props sid ∅ oi >>
        upd (setUploading false)
  | Rejected err =>
      upd (setError (errorMessage err "Failed to filter date range")) >>
      upd (setUploading false)
  end.

Definition handleDateRangeSelect (props : Props) (startDate endDate : string)
    (o : outcome SelectResponse ApiError) (oi : outcome ImportResult ApiError) : Act :=
  fun s =>
    let '(s1, r) := handleDateRangeSelect_begin startDate endDate s in
    (emit (Request r) >> handleDateRangeSelect_resume props (sessionId s) o oi) s1.

Definition handleDateRangeCancel : Act :=
  upd (setShowDateRangePicker false) >>
  upd (setFile None) >>
  upd (setSessionId None) >>
  upd (setDateRange None) >>
  upd (setUploadPhase phase_upload) >>
  emit ResetFileInput.

(** *** What the component renders *)

Definition CATEGORIES : list string :=
  ["Groceries"; "Entertainment"; "Rent"; "Transport"; "Bills"; "Shopping";
   "Healthcare"; "Income"; "Other"; "Uncategorized"].

(** [{file && uploadPhase === 'upload' && (<button ... disabled={uploading}>)}] *)
Definition upload_button_rendered (s : State) : bool :=
  bool_decide (is_Some (file s)) && Phase_eqb (uploadPhase s) phase_upload.

Definition upload_button_disabled (s : State) : bool := uploading s.

(** [{error && (...{error}...)}]: the error card of the page. *)
Definition error_card (s : State) : option string :=
  if truthy (error s) then Some (error s) else None.

(** [{result.imported > 0 && (... Redirecting to Expenses view... )}] *)
Definition redirect_notice (s : State) : bool :=
  match result s with
  | Some r => 0 <? imported r
  | None => false
  end.

(** [<PasswordDialog isOpen={showPasswordDialog} ... error={passwordError}
    loading={uploading} />] *)
Definition passwordDialog (s : State) : PasswordDialog.Props :=
  {| PasswordDialog.isOpen := showPasswordDialog s;
     PasswordDialog.error := passwordError s;
     PasswordDialog.loading := uploading s |}.

(** [{showDateRangePicker && dateRange && (<DateRangePicker
    dateRange={dateRange} ... loading={uploading} />)}] *)
Definition dateRangePicker (s : State) : option DateRangePicker.Props :=
  if showDateRangePicker s
  then (fun dr => DateRangePicker.mkProps dr (uploading s)) <$> dateRange s
  else None.

(** [{showClarificationDialog && (...)}] and its Confirm & Import button,
    [disabled={processingClarifications}]. *)
Definition clarification_dialog_rendered (s : State) : bool := showClarificationDialog s.

Definition confirm_import_disabled (s : State) : bool := processingClarifications s.

(** The value a category selector shows:
    [clarifications[item.index] || item.suggested_category]. *)
Definition selector_value (s : State) (item : AmbiguousItem) : string :=
  or_else (clarifications s !! index item) (suggested_category item).

(** *** The wizard as a transition system *)

(** What the user can do, together with how the requests this causes
    settle.  A handler runs to its end before the next event. *)
Inductive event : Type :=
| FileChosen (selectedFile : option Api.File)
| UploadClicked (o : outcome UploadResponse ApiError)
| PasswordSubmitted (password : string) (o : outcome UploadResponse ApiError)
| PasswordCancelled
| RangeApplied (l : DateRangePicker.LocalState)
    (o : outcome SelectResponse ApiError) (oi : outcome ImportResult ApiError)
| RangeCancelled
| ClarificationChanged (i : Z) (category : string)
| ClarificationsSubmitted (oi : outcome ImportResult ApiError)
| ClarificationCancelled.

(** The handler an event runs; [None] when the control is not rendered or
    is disabled. *)
Definition fire (props : Props) (e : event) (s : State) : option (State * list effect) :=
  match e with
  | FileChosen selectedFile => Some (handleFileChange selectedFile s)
  | UploadClicked o =>
      if upload_button_rendered s && negb (upload_button_disabled s)
      then Some (handleUpload None o s)
      else None
  | PasswordSubmitted password o =>
      if PasswordDialog.rendered (passwordDialog s) then
        match PasswordDialog.handleSubmit (passwordDialog s) password with
        | Some pw => Some (handlePasswordSubmit pw o s)
        | None => Some (s, [])
        end
      else None
  | PasswordCancelled =>
      if PasswordDialog.rendered (passwordDialog s)
      then Some (handlePasswordCancel s)
      else None
  | RangeApplied l o oi =>
      match dateRangePicker s with
      | Some p =>
          if DateRangePicker.apply_disabled p l then None
          else
            match DateRangePicker.handleSubmit p l with
            | Some (startDate, endDate) =>
                Some (handleDateRangeSelect props startDate endDate o oi s)
            | None => Some (s, [])
            end
      | None => None
      end
  | RangeCancelled =>
      match dateRangePicker s with
      | Some p =>
          if DateRangePicker.cancel_disabled p DateRangePicker.initial then None
          else Some (handleDateRangeCancel s)
      | None => None
      end
  | ClarificationChanged i category =>
      (* the selector of an item of [ambiguousItems], set to one of its options *)
      if clarification_dialog_rendered s
         && existsb (fun item => index item =? i) (ambiguousItems s)
         && existsb (String.eqb category) CATEGORIES
      then Some (handleClarificationChange i category s)
      else None
  | ClarificationsSubmitted oi =>
      if clarification_dialog_rendered s && negb (confirm_import_disabled s)
      then Some (handleSubmitClarifications props oi s)
      else None
  | ClarificationCancelled =>
      if clarification_dialog_rendered s
      then Some (handleCancelClarification s)
      else None
  end.

Inductive reachable (props : Props) : State → Prop :=
| reachable_initial : reachable props initial
| reachable_fire s e s' eff :
    reachable props s → fire props e s = Some (s', eff) → reachable props s'.

(** The state of the wizard.  No handler ever assigns ['password'] to
    [uploadPhase]: the wizard is asking for a password exactly while the
    password dialog is open. *)
Inductive WizardState : Type :=
| in_upload
| in_password
| in_date_range
| in_clarify.

Definition wizard_state (s : State) : WizardState :=
  if showPasswordDialog s then in_password
  else
    match uploadPhase s with
    | phase_upload => in_upload
    | phase_password => in_password
    | phase_date_range => in_date_range
    | phase_clarify => in_clarify
    end.


(** [<UploadView />] as the dashboard renders it. *)
Definition Dashboard_props : Props := {| onUploadComplete := None |}.

End UploadView.

(** ** The backend side of the protocol *)

Module Backend.

(** Modelled from the spec: the data model of section 3.  The handlers
    behind [/api/upload-statement], [/api/select-date-range] and
    [/api/import-transactions] are server code that is not among the
    sources; only their caller [expenseAPI] is.  Dates are day numbers and
    amounts are in minor units. *)
Inductive FileType : Type := csv | pdf | excel.

Inductive Confidence : Type := high | medium | low.

Record ExtractedTransaction : Type := mkTransaction {
  date : Z;
  description : string;
  amount : Z;
  suggested_category : string;
  confidence : Confidence;
  reasoning : string;
  alternatives : list string
}.

(** Modelled from the spec: an AmbiguousItem, a merchant-level group of the
    filtered transactions whose confidence is medium or low.  [index] is
    what a clarification refers to; the displayed fields are those of the
    first transaction seen for the merchant. *)
Record AmbiguousItem : Type := mkItem {
  index : nat;
  merchant : string;                 (* the normalized description *)
  representative : ExtractedTransaction;
  transaction_count : nat
}.

(** Modelled from the spec: an UploadSession, the extracted sequence
    together with what the Range Filter wrote last (the filtered set and
    its ambiguous items). *)
Record UploadSession : Type := mkSession {
  transactions : list ExtractedTransaction;
  file_type : FileType;
  created : Z;
  filtered : list ExtractedTransaction;
  ambiguous : list AmbiguousItem
}.

Record Expense : Type := mkExpense {
  expense_date : Z;
  expense_amount : Z;
  expense_description : string;
  expense_category : string
}.

(** Modelled from the spec: the Session Store, keyed by session id, next to
    the persistent expense storage and the per-merchant rules.  Session ids
    are server-generated and unique: a counter that is never reused. *)
Record Store : Type := mkStore {
  sessions : gmap nat UploadSession;
  next_session : nat;
  expenses : list Expense;
  merchant_rules : gmap string string
}.

Definition empty_store : Store :=
  {| sessions := ∅; next_session := 0%nat; expenses := []; merchant_rules := ∅ |}.

Inductive Error : Type :=
| SessionNotFound
| InvalidDateRange
| WrongPassword
| ParseFailure.

Section Handlers.

(** The normalization of a description to a merchant is not specified;
    it is taken as given. *)
Variable normalize : string → string.

Definition is_ambiguous (t : ExtractedTransaction) : bool :=
  match confidence t with
  | high => false
  | medium | low => true
  end.

Definition bump (g : AmbiguousItem) : AmbiguousItem :=
  {| index := index g; merchant := merchant g;
     representative := representative g;
     transaction_count := S (transaction_count g) |}.

(** Modelled from the spec: one transaction joins the group of its
    merchant, which keeps its first-seen suggestion, or opens a new group
    whose index is its position. *)
Fixpoint join (t : ExtractedTransaction) (k : nat) (gs : list AmbiguousItem)
    : list AmbiguousItem :=
  match gs with
  | [] =>
      [ {| index := k; merchant := normalize (description t);
           representative := t; transaction_count := 1 |} ]
  | g :: r =>
      if String.eqb (merchant g) (normalize (description t))
      then bump g :: r
      else g :: join t (S k) r
  end.

Definition group_ambiguous (txs : list ExtractedTransaction) : list AmbiguousItem :=
  fold_left (fun gs t => if is_ambiguous t then join t 0 gs else gs) txs [].

(** Modelled from the spec: the Extractor's verdict on a file comes from
    the parser and the classifier, which are external. *)
Inductive Extraction : Type :=
| Extracted (txs : list ExtractedTransaction)
| PasswordRequired
| Failed (e : Error).

Inductive UploadResult : Type :=
| upload_extracted (session_id : nat) (transaction_count : nat)
| upload_password_required
| upload_error (e : Error).

(** Modelled from the spec: the upload handler (4.1).  A successful extraction allocates a new
    session and stores the extracted sequence under its id. *)
Definition upload (x : Extraction) (ft : FileType) (now : Z) (st : Store)
    : UploadResult * Store :=
  match x with
  | Extracted txs =>
      let sid := next_session st in
      let sess :=
        {| transactions := txs; file_type := ft; created := now;
           filtered := txs; ambiguous := group_ambiguous txs |} in
      (upload_extracted sid (length txs),
       {| sessions := <[sid := sess]> (sessions st);
          next_session := S sid;
          expenses := expenses st;
          merchant_rules := merchant_rules st |})
  | PasswordRequired => (upload_password_required, st)
  | Failed e => (upload_error e, st)
  end.

Record SelectResult : Type := mkSelectResult {
  needs_clarification : bool;
  ambiguous_count : nat;
  ambiguous_items : list AmbiguousItem
}.

(** Modelled from the spec: the select_date_range handler, the Range
    Filter of 4.2.  It reads the
    extracted sequence of the session, keeps the transactions dated
    within the inclusive bounds, groups the ambiguous ones, and writes the
    filtered set and the ambiguous list back to the session. *)
Definition select_date_range (sid : nat) (start_date end_date : Z) (st : Store)
    : (Error + SelectResult) * Store :=
  match sessions st !! sid with
  | None => (inl SessionNotFound, st)
  | Some sess =>
      if end_date <? start_date then (inl InvalidDateRange, st)
      else
        let kept :=
          filter (fun t => start_date ≤ date t ∧ date t ≤ end_date) (transactions sess) in
        let items := group_ambiguous kept in
        (inr {| needs_clarification := negb (bool_decide (items = []));
                ambiguous_count := length items;
                ambiguous_items := items |},
         {| sessions :=
              <[sid := {| transactions := transactions sess;
                          file_type := file_type sess;
                          created := created sess;
                          filtered := kept;
                          ambiguous := items |}]> (sessions st);
            next_session := next_session st;
            expenses := expenses st;
            merchant_rules := merchant_rules st |})
  end.

(** The ambiguous items a call reported, none if it failed. *)
Definition items_of (r : Error + SelectResult) : list AmbiguousItem :=
  match r with
  | inl _ => []
  | inr res => ambiguous_items res
  end.

(** Modelled from the spec: (4.3) the category a transaction is written
    with: the user's choice for the group of its merchant where there is
    one, the original suggestion otherwise. *)
Definition resolved_category (clarifications : gmap nat string)
    (items : list AmbiguousItem) (t : ExtractedTransaction) : string :=
  match List.find (fun g => String.eqb (merchant g) (normalize (description t))) items with
  | Some g => default (suggested_category t) (clarifications !! index g)
  | None => suggested_category t
  end.

Definition expense_of (clarifications : gmap nat string) (items : list AmbiguousItem)
    (t : ExtractedTransaction) : Expense :=
  {| expense_date := date t;
     expense_amount := amount t;
     expense_description := description t;
     expense_category := resolved_category clarifications items t |}.

Definition same_expense (a b : Expense) : bool :=
  (expense_date a =? expense_date b)
  && (expense_amount a =? expense_amount b)
  && String.eqb (expense_description a) (expense_description b).

(** Modelled from the spec: rows that duplicate an expense stored before
    the import are skipped. *)
Definition fresh_rows (stored : list Expense) (rows : list Expense) : list Expense :=
  List.filter (fun e => negb (existsb (same_expense e) stored)) rows.

(** Modelled from the spec: a chosen category becomes the rule of the
    merchant. *)
Definition learn (clarifications : gmap nat string) (items : list AmbiguousItem)
    (rules : gmap string string) : gmap string string :=
  fold_left
    (fun acc g =>
       match clarifications !! index g with
       | Some c => <[merchant g := c]> acc
       | None => acc
       end)
    items rules.

Record ImportResult : Type := mkImportResult {
  imported : nat;
  total : nat;
  learned : list bool   (* per ambiguous item: was a rule stored *)
}.

(** Modelled from the spec: the import_transactions handler, the
    Clarifier/Importer of 4.3.  It commits the
    filtered set of the session to the expense storage and deletes the
    session; an unknown session id fails and changes nothing. *)
Definition import_transactions (sid : nat) (clarifications : gmap nat string)
    (st : Store) : (Error + ImportResult) * Store :=
  match sessions st !! sid with
  | None => (inl SessionNotFound, st)
  | Some sess =>
      let rows := map (expense_of clarifications (ambiguous sess)) (filtered sess) in
      let new_rows := fresh_rows (expenses st) rows in
      (inr {| imported := length new_rows;
              total := length rows;
              learned :=
                map (fun g => bool_decide (is_Some (clarifications !! index g)))
                    (ambiguous sess) |},
       {| sessions := delete sid (sessions st);
          next_session := next_session st;
          expenses := expenses st ++ new_rows;
          merchant_rules := learn clarifications (ambiguous sess) (merchant_rules st) |})
  end.

(** Modelled from the spec: the three operations of section 6 that a client
    can invoke. *)
Inductive op : Type :=
| op_upload (x : Extraction) (ft : FileType) (now : Z)
| op_select_date_range (sid : nat) (start_date end_date : Z)
| op_import_transactions (sid : nat) (clarifications : gmap nat string).

Definition run (o : op) (st : Store) : Store :=
  match o with
  | op_upload x ft now => snd (upload x ft now st)
  | op_select_date_range sid a b => snd (select_date_range sid a b st)
  | op_import_transactions sid c => snd (import_transactions sid c st)
  end.

Definition run_all (ops : list op) (st : Store) : Store :=
  fold_left (fun acc o => run o acc) ops st.

(** Every stored session was allocated by the counter. *)
Definition ids_allocated (st : Store) : Prop :=
  ∀ sid, is_Some (sessions st !! sid) → (sid < next_session st)%nat.

End Handlers.

End Backend.

(** ** The specification's reading of the accepted file types *)

Module Spec.

(** [ends_with ext s]: [ext] is a suffix of [s]. *)
Fixpoint ends_with (ext s : string) : bool :=
  String.eqb s ext
  || match s with
     | EmptyString => false
     | String _ r => ends_with ext r
     end.

(** "Accepted file extensions: .csv, .pdf, .xlsx, .xls", compared without
    regard to case: the lower-cased name ends with one of the four. *)
Definition accepted_extension (name : string) : bool :=
  existsb (fun ext => ends_with ext (JS.toLowerCase name))
          [".csv"; ".pdf"; ".xlsx"; ".xls"].

End Spec.

(** ** A run of the wizard, used to exercise the statements below *)

Module Scenario.

Import UploadView.

Definition statement : Api.File := Api.mkFile "statement.PDF" 20480.

(** The user has chosen [statement]. *)
Definition selected : State := fst (handleFileChange (Some statement) initial).

Definition locked : UploadResponse :=
  {| status := "password_required"; session_id := None; file_type := None;
     date_range := None; preview_rows := [] |}.

(** The first upload was answered with [password_required]. *)
Definition asking_password : State :=
  fst (handleUpload None (JS.Resolved locked) selected).

Definition january : DateRangePicker.DateRange :=
  {| DateRangePicker.min_date := "2024-01-05";
     DateRangePicker.max_date := "2024-01-15";
     DateRangePicker.total_days := 11;
     DateRangePicker.suggested_ranges :=
       [ {| DateRangePicker.label := "Full range";
            DateRangePicker.start_date := "2024-01-05";
            DateRangePicker.end_date := "2024-01-15";
            DateRangePicker.days := 11 |} ] |}.

Definition unlocked : UploadResponse :=
  {| status := "extracted"; session_id := Some "sess-1"; file_type := Some "pdf";
     date_range := Some january;
     preview_rows := [ {| row_date := "2024-01-05";
                          row_description := "Walmart Groceries";
                          row_amount := 5000 |} ] |}.

(** The password was accepted: the wizard shows the date range picker. *)
Definition choosing_range : State :=
  fst (handlePasswordSubmit "secret" (JS.Resolved unlocked) asking_password).

Definition walmart : AmbiguousItem :=
  {| index := 0; description := "Walmart Groceries"; amount := 5000;
     date := "2024-01-05"; confidence := "low";
     reasoning := "Could be groceries or shopping";
     alternatives := ["Shopping"]; suggested_category := "Groceries";
     transaction_count := 2 |}.

Definition ambiguous_answer : SelectResponse :=
  {| needs_clarification := true; ambiguous_count := 1; ambiguous_items := [walmart] |}.

Definition clear_answer : SelectResponse :=
  {| needs_clarification := false; ambiguous_count := 0; ambiguous_items := [] |}.

Definition three_rows : ImportResult :=
  {| imported := 3; total := 3; message := "Imported 3 of 3 transactions" |}.

Definition wrong_password : ApiError :=
  {| response := Some {| data_message := Some "Incorrect password";
                         data_error := None |} |}.

(** Two items of one answer carrying the same index. *)
Definition walmart_again : AmbiguousItem :=
  {| index := 0; description := "Walmart Supercenter"; amount := 3000;
     date := "2024-01-10"; confidence := "medium";
     reasoning := "Large basket";
     alternatives := ["Groceries"]; suggested_category := "Shopping";
     transaction_count := 1 |}.

Definition clashing_answer : SelectResponse :=
  {| needs_clarification := true; ambiguous_count := 2;
     ambiguous_items := [walmart; walmart_again] |}.

End Scenario.

(** ** The end-to-end example of the specification

  Three rows, two of them at Walmart with low confidence. *)

Module BackendScenario.

Import Backend.

Definition normalize_id (d : string) : string := d.

Definition three_row_csv : list ExtractedTransaction :=
  [ {| date := 5; description := "Walmart Groceries"; amount := 5000;
       suggested_category := "Shopping"; confidence := low;
       reasoning := "ambiguous merchant"; alternatives := ["Groceries"] |};
    {| date := 10; description := "Walmart Groceries"; amount := 3000;
       suggested_category := "Shopping"; confidence := low;
       reasoning := "ambiguous merchant"; alternatives := ["Groceries"] |};
    {| date := 15; description := "Uber"; amount := 1200;
       suggested_category := "Transport"; confidence := high;
       reasoning := "ride"; alternatives := [] |} ].

(** The file was uploaded and January selected. *)
Definition after_upload : Store :=
  run_all normalize_id
    [op_upload (Extracted three_row_csv) csv 0; op_select_date_range 0%nat 1 31]
    empty_store.

Definition groceries : gmap nat string := {[ 0%nat := "Groceries" ]}.

Definition counts (r : Error + ImportResult) : option (nat * nat) :=
  match r with
  | inl _ => None
  | inr res => Some (imported res, total res)
  end.

End BackendScenario.

(** ** Predicates used in the statements *)

Module Predicates.

Import UploadView.

(** An extension as the regular expression can return it: a dot and then
    one or more characters, none of them a dot. *)
Definition extension_shaped (ext : string) : Prop :=
  match ext with
  | EmptyString => False
  | String c e => is_dot c = true ∧ JS.truthy e = true ∧ no_dot e = true
  end.

(** Between two events: ['password'] is never the phase; a session id is
    held only outside the upload phase; the password dialog is open only
    in the upload phase and never together with another dialog; a selected
    file in the upload phase means no other dialog is open; and no request
    is outstanding. *)
Definition wizard_inv (s : State) : Prop :=
  uploadPhase s ≠ phase_password
  ∧ (uploadPhase s = phase_upload → sessionId s = None)
  ∧ (showPasswordDialog s = true →
       uploadPhase s = phase_upload
       ∧ showDateRangePicker s = false
       ∧ showClarificationDialog s = false)
  ∧ (file s ≠ None → uploadPhase s = phase_upload →
       showDateRangePicker s = false ∧ showClarificationDialog s = false)
  ∧ uploading s = false
  ∧ processingClarifications s = false.

(** The outcome of a cancel: the upload state, no session id, no file, and
    nothing sent. *)
Definition cancelled (r : State * list effect) : Prop :=
  wizard_state (fst r) = in_upload
  ∧ sessionId (fst r) = None
  ∧ file (fst r) = None
  ∧ requests (snd r) = [].

(** [sid] was handed out and its session is gone. *)
Definition consumed (sid : nat) (st : Backend.Store) : Prop :=
  Backend.sessions st !! sid = None ∧ (sid < Backend.next_session st)%nat.

End Predicates.

(** ** The rest of DateRangePicker.jsx: its local state *)

Module PickerHandlers.

Import DateRangePicker.

(** [handleQuickSelect]: [setSelectedRangeIndex(index); setCustomMode(false)]. *)
Definition handleQuickSelect (index : nat) (l : LocalState) : LocalState :=
  {| selectedRangeIndex := index; customMode := false;
     customStart := customStart l; customEnd := customEnd l |}.




End PickerHandlers.

(** ** The rest of UploadView.jsx: helpers of the rendering *)

Module UploadViewRender.

Import UploadView.

(** [item.transaction_count || 1]: zero is falsy. *)
Definition count_or_one (item : AmbiguousItem) : Z :=
  if transaction_count item =? 0 then 1 else transaction_count item.

(** [ambiguousItems.reduce((sum, item) => sum + (item.transaction_count || 1), 0)] *)
Definition total_transactions (items : list AmbiguousItem) : Z :=
  fold_left (fun sum item => sum + count_or_one item) items 0.

(** [ambiguousItems.some(item => item.transaction_count > 1)] *)
Definition some_grouped (items : list AmbiguousItem) : bool :=
  existsb (fun item => 1 <? transaction_count item) items.

(** The footer of the clarification dialog: the number of merchants, and in
    parentheses the number of transactions when some merchant has several. *)
Definition footer (s : State) : Z * option Z :=
  (Z.of_nat (length (ambiguousItems s)),
   if some_grouped (ambiguousItems s)
   then Some (total_transactions (ambiguousItems s))
   else None).

End UploadViewRender.

(** ** services/api.js : the axios instance and its interceptors *)

Module ApiClient.

(** [localStorage]. *)
Definition getItem (k : string) (ls : gmap string string) : option string := ls !! k.
Definition setItem (k v : string) (ls : gmap string string) : gmap string string :=
  <[k := v]> ls.
Definition removeItem (k : string) (ls : gmap string string) : gmap string string :=
  delete k ls.

(** A request configuration: where it goes, its headers, and the [_retry]
    mark the response interceptor leaves on it. *)
Record Config : Type := mkConfig {
  url : string;
  headers : gmap string string;
  _retry : bool
}.

Definition setAuthorization (v : string) (c : Config) : Config :=
  {| url := url c; headers := <["Authorization" := v]> (headers c); _retry := _retry c |}.

Definition markRetry (c : Config) : Config :=
  {| url := url c; headers := headers c; _retry := true |}.

Definition bearer (token : string) : string := String.append "Bearer " token.

(** The request interceptor: [if (token) config.headers.Authorization =
    `Bearer ${token}`]. *)
Definition requestInterceptor (ls : gmap string string) (config : Config) : Config :=
  match getItem "access_token" ls with
  | Some token => if JS.truthy token then setAuthorization (bearer token) config else config
  | None => config
  end.

(** What the server does with a request: it answers with data, or the
    request fails, with the HTTP status when there was a response. *)
Inductive answer : Type :=
| Answered (data : string)
| Failed (status : option Z).

(** The network: the answer to the n-th request sent through the instance,
    and the outcome of a call of [/api/auth/refresh] made with the given
    [Authorization] header: the new access token, or the status of the
    failure. *)
Record Net : Type := mkNet {
  serve : nat → Config → answer;
  serve_refresh : string → JS.outcome string (option Z)
}.

(** What a rejected call is rejected with. *)
Inductive error : Type :=
| RequestError (status : option Z) (config : Config)   (* [error], with [error.config] *)
| RefreshError (status : option Z).                     (* [refreshError] *)

Inductive result : Type :=
| Response (data : string)
| Reject (e : error).

Inductive effect : Type :=
| Sent (config : Config)               (* a request of the instance *)
| SentRefresh (authorization : string) (* the plain [axios.post] of the refresh *)
| Redirect (href : string).            (* [window.location.href = href] *)

(** [api(config)]: the request interceptor, the request, and on failure
    the response interceptor, which may refresh the access token and call
    [api] again.  [n] counts the requests sent so far; [fuel] bounds the
    nesting of calls. *)
Fixpoint api (fuel : nat) (net : Net) (n : nat) (config : Config) (ls : gmap string string)
    : option (result * gmap string string * list effect) :=
  match fuel with
  | O => None
  | S fuel' =>
      let config := requestInterceptor ls config in
      match serve net n config with
      | Answered data => Some (Response data, ls, [Sent config])
      | Failed status =>
          let originalRequest := config in
          if bool_decide (status = Some 401) && negb (_retry originalRequest) then
            let originalRequest := markRetry originalRequest in
            match getItem "refresh_token" ls with
            | Some refreshToken =>
                if JS.truthy refreshToken then
                  match serve_refresh net (bearer refreshToken) with
                  | JS.Resolved newAccessToken =>
                      let ls := setItem "access_token" newAccessToken ls in
                      let originalRequest :=
                        setAuthorization (bearer newAccessToken) originalRequest in
                      match api fuel' net (S n) originalRequest ls with
                      | Some (r, ls', eff) =>
                          Some (r, ls',
                                Sent config :: SentRefresh (bearer refreshToken) :: eff)
                      | None => None
                      end
                  | JS.Rejected refreshStatus =>
                      let ls := removeItem "access_token" ls in
                      let ls := removeItem "refresh_token" ls in
                      Some (Reject (RefreshError refreshStatus), ls,
                            [Sent config; SentRefresh (bearer refreshToken);
                             Redirect "/login"])
                  end
                else
                  Some (Reject (RequestError status originalRequest), ls,
                        [Sent config; Redirect "/login"])
            | None =>
                Some (Reject (RequestError status originalRequest), ls,
                      [Sent config; Redirect "/login"])
            end
          else
            Some (Reject (RequestError status originalRequest), ls, [Sent config])
      end
  end.

Definition is_sent (e : effect) : bool :=
  match e with Sent _ => true | _ => false end.

Definition is_refresh (e : effect) : bool :=
  match e with SentRefresh _ => true | _ => false end.

Definition is_redirect (e : effect) : bool :=
  match e with Redirect _ => true | _ => false end.

Definition count (f : effect → bool) (l : list effect) : nat :=
  length (List.filter f l).

End ApiClient.

(** ** Dashboard.jsx *)

Module Dashboard.

(** [handleSignOut]: both tokens leave [localStorage], then
    [navigate('/login')].  The result is the storage and the route. *)
Definition handleSignOut (ls : gmap string string) : gmap string string * string :=
  let ls := ApiClient.removeItem "access_token" ls in
  let ls := ApiClient.removeItem "refresh_token" ls in
  (ls, "/login").

End Dashboard.

(** ** AnalyticsView.jsx: the colours of the pie chart *)

Module AnalyticsView.

Definition COLORS : list string :=
  ["#0088FE"; "#00C49F"; "#FFBB28"; "#FF8042"; "#8884D8"; "#82CA9D"; "#FFC658"; "#FF6B9D"].

(** [COLORS[index % COLORS.length]], the fill of the cell of entry [index]. *)
Definition cell_fill (index : nat) : option string :=
  COLORS !! (index mod length COLORS)%nat.

End AnalyticsView.

(** ** More predicates used in the statements *)

Module Progress.

Import UploadView.

(** Everything the wizard has gathered is as before: the file, the session
    and what came with it, the phase, the open dialogs, the items and the
    categories chosen for them, and the last result. *)
Definition same_progress (s s' : State) : Prop :=
  file s' = file s
  ∧ fileType s' = fileType s
  ∧ sessionId s' = sessionId s
  ∧ dateRange s' = dateRange s
  ∧ preview s' = preview s
  ∧ uploadPhase s' = uploadPhase s
  ∧ showPasswordDialog s' = showPasswordDialog s
  ∧ showDateRangePicker s' = showDateRangePicker s
  ∧ showClarificationDialog s' = showClarificationDialog s
  ∧ ambiguousItems s' = ambiguousItems s
  ∧ clarifications s' = clarifications s
  ∧ result s' = result s.

(** At most one of the three dialogs is open. *)
Definition one_dialog (s : State) : Prop :=
  showPasswordDialog s && showDateRangePicker s = false
  ∧ showPasswordDialog s && showClarificationDialog s = false
  ∧ showDateRangePicker s && showClarificationDialog s = false.

(** The upload requests among the effects carry [clear_previous] as ['true']. *)
Definition clears_previous (eff : list effect) : Prop :=
  ∀ body, In (Request (Api.PostUploadStatement body)) eff →
    Api.get "clear_previous" body = Some (Api.FText "true").

End Progress.

(** * Properties *)

(** ** The request builders *)

(** C10: when [clearPrevious] is omitted, [uploadStatement] sends
    [clear_previous] as ['true'], which is also the initial value of the
    wizard's own setting, and the body carries a [password] field exactly
    when the password argument is neither [null] nor the empty string; the
    field then holds that password. *)
Theorem uploadStatement_defaults (file : Api.File) (password : option string) :
  let body := Api.body_of (Api.uploadStatement file password None) in
  Api.get "clear_previous" body = Some (Api.FText "true")
  ∧ UploadView.clearPrevious UploadView.initial = true
  ∧ (Api.has "password" body = true ↔ ∃ p, password = Some p ∧ p ≠ EmptyString)
  ∧ (∀ p, password = Some p → p ≠ EmptyString →
       Api.get "password" body = Some (Api.FText p)).
Proof.
  destruct password as [[|c p]|]; cbn; repeat split; try congruence.
  - intros [q [Hq Hne]]. inversion Hq; subst. congruence.
  - intros _. eexists; split; [reflexivity | congruence].
  - intros [q [Hq _]]. congruence.
Qed.

Lemma uploadStatement_defaults_witness :
  let body :=
    Api.body_of (Api.uploadStatement (Api.mkFile "statement.pdf" 1) (Some "hunter2") None) in
  Api.get "clear_previous" body = Some (Api.FText "true")
  ∧ Api.get "password" body = Some (Api.FText "hunter2").
Proof.
  cbv zeta.
  destruct (uploadStatement_defaults (Api.mkFile "statement.pdf" 1) (Some "hunter2"))
    as (Hclear & _ & _ & Hpw).
  split; [exact Hclear|]. apply Hpw; [reflexivity | discriminate].
Defined.

(** The wizard passes its own setting, which no handler changes. *)
Lemma wizard_sends_clear_previous (s : UploadView.State) (f : Api.File)
    (password : option string) :
  UploadView.file s = Some f →
  snd (UploadView.handleUpload_begin password s)
  = Some (Api.uploadStatement f password (Some (UploadView.clearPrevious s))).
Proof. intros Hf. unfold UploadView.handleUpload_begin. rewrite Hf. reflexivity. Qed.

(** ** File selection *)

Section Extensions.

Import UploadView Predicates.

Lemma allowedExtensions_shaped : Forall extension_shaped allowedExtensions.
Proof. repeat constructor. Qed.

Lemma ends_with_refl (s : string) : Spec.ends_with s s = true.
Proof. destruct s; cbn [Spec.ends_with]; rewrite String.eqb_refl; reflexivity. Qed.

(** A string without a dot has no suffix with a dot. *)
Lemma ends_with_no_dot (ext s : string) :
  no_dot s = true → no_dot ext = false → Spec.ends_with ext s = false.
Proof.
  intros Hs Hext. induction s as [|c r IH]; cbn [Spec.ends_with no_dot] in *.
  - destruct (String.eqb_spec EmptyString ext) as [<-|]; [discriminate | reflexivity].
  - apply andb_prop in Hs as [Hc Hr]. rewrite (IH Hr), orb_false_r.
    destruct (String.eqb_spec (String c r) ext) as [<-|]; [|reflexivity].
    simpl in Hext. rewrite Hc, Hr in Hext. discriminate.
Qed.

Lemma extension_shaped_has_dot (ext : string) : extension_shaped ext → no_dot ext = false.
Proof. destruct ext as [|c e]; simpl; [tauto|]. intros (-> & _ & _). reflexivity. Qed.

Lemma existsb_agree {A} (f g : A → bool) (l : list A) :
  Forall (fun x => f x = g x) l → existsb f l = existsb g l.
Proof. induction 1 as [|x l Hx _ IH]; simpl; congruence. Qed.

(** On extensions of that shape, testing the matched extension for
    membership is the same as testing the name for one of the suffixes. *)
Lemma includes_match_extension (l : list string) (s : string) :
  Forall extension_shaped l →
  includes l (match_extension s) = existsb (fun ext => Spec.ends_with ext s) l.
Proof.
  intros Hl. induction s as [|c r IH].
  - cbn [match_extension includes Spec.ends_with].
    symmetry. apply not_true_is_false. intros H.
    apply existsb_exists in H as (ext & Hin & He).
    rewrite Forall_forall in Hl. apply list_elem_of_In, Hl in Hin.
    rewrite orb_false_r in He. apply String.eqb_eq in He. subst ext. exact Hin.
  - cbn [match_extension].
    destruct (is_dot c && JS.truthy r && no_dot r) eqn:Hcond.
    + apply andb_prop in Hcond as [Hcond Hnd]. cbn [includes Spec.ends_with].
      apply existsb_agree. eapply Forall_impl; [exact Hl|]. intros ext Hin.
      cbn beta.
      rewrite (ends_with_no_dot ext r Hnd (extension_shaped_has_dot _ Hin)).
      now rewrite orb_false_r.
    + rewrite IH. cbn [Spec.ends_with].
      apply existsb_agree. eapply Forall_impl; [exact Hl|]. intros ext Hin.
      cbn beta.
      destruct (String.eqb_spec (String c r) ext) as [<-|]; [|reflexivity].
      simpl in Hin. destruct Hin as (Hc & Ht & Hn).
      rewrite Hc, Ht, Hn in Hcond. discriminate.
Qed.

(** The test of [handleFileChange] accepts exactly the names the
    specification accepts. *)
Lemma accepted_iff_spec (name : string) :
  includes allowedExtensions (match_extension (JS.toLowerCase name))
  = Spec.accepted_extension name.
Proof. apply includes_match_extension, allowedExtensions_shaped. Qed.

End Extensions.

Section FileSelection.

Import UploadView.

(** C7: a file whose name does not end, case-insensitively, in [.csv],
    [.pdf], [.xlsx] or [.xls] is rejected by [handleFileChange] without any
    request: the error message is set and shown, no file is stored, the
    upload button is not rendered, and [handleUpload] sends no request from
    the resulting state, whatever password it is given. *)
Theorem invalid_extension_rejected (f : Api.File) (s : State) :
  Spec.accepted_extension (Api.name f) = false →
  let s' := fst (handleFileChange (Some f) s) in
  snd (handleFileChange (Some f) s) = []
  ∧ error s' = "Please select a valid file (CSV, PDF, or Excel)"
  ∧ error_card s' = Some (error s')
  ∧ file s' = None
  ∧ upload_button_rendered s' = false
  ∧ ∀ password o, snd (handleUpload password o s') = [].
Proof.
  intros Hrej. unfold handleFileChange. cbn [mbind option_bind].
  rewrite accepted_iff_spec, Hrej, andb_false_r. cbn.
  repeat split; reflexivity.
Qed.

Lemma invalid_extension_rejected_witness :
  Spec.accepted_extension "notes.TXT" = false
  ∧ file (fst (handleFileChange (Some (Api.mkFile "notes.TXT" 12)) initial)) = None.
Proof.
  split; [reflexivity|].
  apply (invalid_extension_rejected (Api.mkFile "notes.TXT" 12) initial).
  reflexivity.
Defined.

(** The converse: a name the specification accepts is stored. *)
Lemma valid_extension_stored (f : Api.File) (s : State) :
  Spec.accepted_extension (Api.name f) = true →
  file (fst (handleFileChange (Some f) s)) = Some f.
Proof.
  intros Hacc. unfold handleFileChange. cbn [mbind option_bind].
  rewrite accepted_iff_spec, Hacc. reflexivity.
Qed.

End FileSelection.

(** ** What holds in every state the wizard can reach *)

Section Invariant.

Import UploadView Predicates.

Lemma wizard_inv_initial : wizard_inv initial.
Proof.
  unfold wizard_inv; cbn; repeat split; congruence.
Qed.

Lemma Phase_eqb_eq (a b : Phase) : Phase_eqb a b = true → a = b.
Proof. destruct a, b; simpl; congruence. Qed.

Ltac unfold_handlers :=
  unfold fire, handleFileChange, handleUpload, handlePasswordSubmit, handleUpload,
    handleUpload_begin, handleUpload_resume, handlePasswordCancel,
    handleDateRangeSelect, handleDateRangeSelect_begin, handleDateRangeSelect_resume,
    handleDateRangeCancel, handleClarificationChange, handleSubmitClarifications,
    handleImport, handleImport_begin, handleImport_resume, handleCancelClarification,
    upload_button_rendered, upload_button_disabled, passwordDialog, dateRangePicker,
    clarification_dialog_rendered, confirm_import_disabled,
    PasswordDialog.rendered, PasswordDialog.handleSubmit,
    DateRangePicker.apply_disabled, DateRangePicker.cancel_disabled,
    DateRangePicker.handleSubmit, seq, upd, emit, skip in *.

Ltac split_cases :=
  repeat match goal with
    | H : Some _ = Some _ |- _ => inversion H; subst; clear H
    | H : None = Some _ |- _ => discriminate H
    | H : (_, _) = (_, _) |- _ => inversion H; subst; clear H
    | H : context [match ?x with _ => _ end] |- _ => destruct x eqn:?; cbn in H
    end.

Ltac use_guards :=
  repeat match goal with
    | H : _ && _ = true |- _ => apply andb_prop in H; destruct H
    | H : _ || _ = false |- _ => apply orb_false_elim in H; destruct H
    | H : bool_decide _ = true |- _ => apply bool_decide_eq_true in H
    | H : is_Some _ |- _ => destruct H as [? H]
    | H : Phase_eqb _ _ = true |- _ => apply Phase_eqb_eq in H
    | H : negb _ = true |- _ => apply negb_true_iff in H
    end.

Lemma fire_preserves_inv (props : Props) (e : event) (s s' : State) (eff : list effect) :
  wizard_inv s → fire props e s = Some (s', eff) → wizard_inv s'.
Proof.
  intros Hinv Hfire. destruct e; unfold_handlers; cbn in Hfire.
  all: split_cases.
  all: unfold wizard_inv in *; cbn in *.
  all: use_guards.
  all: intuition congruence.
Qed.

Lemma reachable_inv (props : Props) (s : State) : reachable props s → wizard_inv s.
Proof.
  induction 1 as [|s e s' eff _ IH Hfire].
  - apply wizard_inv_initial.
  - eapply fire_preserves_inv; eassumption.
Qed.

Lemma errorMessage_truthy (err : ApiError) (fallback : string) :
  JS.truthy fallback = true → JS.truthy (errorMessage err fallback) = true.
Proof.
  intros Hf. unfold errorMessage, JS.or_else.
  destruct (response err ≫= data_message) as [m|];
    [destruct (JS.truthy m) eqn:Hm; [exact Hm|]|];
    (destruct (response err ≫= data_error) as [e|];
      [destruct (JS.truthy e) eqn:He; [exact He | exact Hf] | exact Hf]).
Qed.


Lemma reachable_selected (props : Props) : reachable props Scenario.selected.
Proof.
  eapply reachable_fire with (e := FileChosen (Some Scenario.statement));
    [apply reachable_initial | reflexivity].
Defined.

Lemma reachable_asking_password (props : Props) :
  reachable props Scenario.asking_password.
Proof.
  eapply reachable_fire with (e := UploadClicked (JS.Resolved Scenario.locked));
    [apply reachable_selected | reflexivity].
Defined.

Lemma reachable_choosing_range (props : Props) :
  reachable props Scenario.choosing_range.
Proof.
  eapply reachable_fire
    with (e := PasswordSubmitted "secret" (JS.Resolved Scenario.unlocked));
    [apply reachable_asking_password | reflexivity].
Defined.


(** The same for the cancel controls as they are wired: whenever one of
    them fires, the wizard ends in the upload state without session or
    file, and nothing is sent. *)
Lemma cancel_event_discards_session (props : Props) (e : event) (s s' : State)
    (eff : list effect) :
  reachable props s →
  e = PasswordCancelled ∨ e = RangeCancelled ∨ e = ClarificationCancelled →
  fire props e s = Some (s', eff) →
  cancelled (s', eff).
Proof.
  intros Hreach He Hfire. apply reachable_inv in Hreach.
  unfold wizard_inv in Hreach. unfold cancelled, wizard_state.
  destruct He as [-> | [-> | ->]]; unfold_handlers; cbn in Hfire.
  all: split_cases; cbn.
  all: destruct (showPasswordDialog s) eqn:?; destruct (uploadPhase s) eqn:?.
  all: cbn; intuition congruence.
Qed.

(** *** Phase 1 *)



(** C1: a password attempt that the server rejects leaves the password
    dialog open, but the message is stored in [error], which the page
    shows in its own error card; [passwordError], the only text the dialog
    displays, is the empty string, and the dialog shows no message. *)
Theorem rejected_password_not_reported_in_dialog (s : State) (f : Api.File)
    (password : string) (err : ApiError) :
  file s = Some f →
  showPasswordDialog s = true →
  let s' := fst (handlePasswordSubmit password (JS.Rejected err) s) in
  wizard_state s' = in_password
  ∧ PasswordDialog.rendered (passwordDialog s') = true
  ∧ passwordError s' = EmptyString
  ∧ PasswordDialog.error_box (passwordDialog s') = None
  ∧ error_card s' = Some (errorMessage err "Failed to upload file").
Proof.
  intros Hfile Hshow.
  unfold handlePasswordSubmit, handleUpload, handleUpload_begin. rewrite Hfile.
  unfold wizard_state, error_card, PasswordDialog.error_box, PasswordDialog.rendered.
  cbn. rewrite Hshow, errorMessage_truthy by reflexivity. cbn. auto.
Qed.

Lemma rejected_password_not_reported_in_dialog_witness :
  let s' := fst (handlePasswordSubmit "guess" (JS.Rejected Scenario.wrong_password)
                   Scenario.asking_password) in
  file Scenario.asking_password = Some Scenario.statement
  ∧ showPasswordDialog Scenario.asking_password = true
  ∧ PasswordDialog.error_box (passwordDialog s') = None
  ∧ error_card s' = Some "Incorrect password".
Proof.
  cbv zeta. split; [reflexivity|]. split; [reflexivity|].
  pose proof (rejected_password_not_reported_in_dialog Scenario.asking_password
                Scenario.statement "guess" Scenario.wrong_password eq_refl eq_refl)
    as (_ & _ & _ & Hbox & Hcard).
  split; [exact Hbox | exact Hcard].
Defined.

(** No handler ever writes anything but the empty string to
    [passwordError]. *)
Lemma passwordError_always_empty (props : Props) (s : State) :
  reachable props s → passwordError s = EmptyString.
Proof.
  induction 1 as [|s e s' eff _ IH Hfire]; [reflexivity|].
  destruct e; unfold_handlers; cbn in Hfire.
  all: split_cases; cbn; congruence.
Qed.

(** *** Phase 2 *)








(** An answer without ambiguous items: both requests go out, the result is
    kept, and the wizard is back in the upload phase without session or file.
    [handleImport] does not touch [showDateRangePicker]. *)
Example straight_through_import :
  let r :=
    handleDateRangeSelect Dashboard_props "2024-01-05" "2024-01-15"
      (JS.Resolved Scenario.clear_answer) (JS.Resolved Scenario.three_rows)
      Scenario.choosing_range in
  requests (snd r)
  = [Request (Api.selectDateRange (Some "sess-1") "2024-01-05" "2024-01-15");
     Request (Api.importTransactions (Some "sess-1") (Some ∅))]
  ∧ result (fst r) = Some Scenario.three_rows
  ∧ uploadPhase (fst r) = phase_upload
  ∧ sessionId (fst r) = None
  ∧ file (fst r) = None
  ∧ showDateRangePicker (fst r) = true.
Proof. vm_compute. repeat split; reflexivity. Qed.

(** *** Phase 3 *)




(** The page nevertheless announces the redirect. *)
Lemma redirect_announced_without_callback :
  redirect_notice
    (fst (handleImport Dashboard_props (Some "sess-1") ∅
            (JS.Resolved Scenario.three_rows) Scenario.choosing_range)) = true.
Proof. vm_compute. reflexivity. Qed.

(** *** Controls while a request is outstanding *)

Lemma upload_button_blocked (props : Props) (s : State)
    (o : JS.outcome UploadResponse ApiError) :
  uploading s = true →
  upload_button_disabled s = true ∧ fire props (UploadClicked o) s = None.
Proof.
  intros Hup. unfold fire, upload_button_disabled. rewrite Hup, andb_false_r. auto.
Qed.

Lemma apply_filter_blocked (props : Props) (s : State) (p : DateRangePicker.Props)
    (l : DateRangePicker.LocalState) (o : JS.outcome SelectResponse ApiError)
    (oi : JS.outcome ImportResult ApiError) :
  uploading s = true →
  dateRangePicker s = Some p →
  DateRangePicker.apply_disabled p l = true ∧ fire props (RangeApplied l o oi) s = None.
Proof.
  intros Hup Hp. unfold fire. rewrite Hp.
  unfold dateRangePicker in Hp. rewrite Hup in Hp.
  destruct (showDateRangePicker s); [|discriminate].
  destruct (dateRange s); [|discriminate]. inversion Hp; subst. auto.
Qed.

Lemma confirm_import_blocked (props : Props) (s : State)
    (oi : JS.outcome ImportResult ApiError) :
  processingClarifications s = true →
  confirm_import_disabled s = true ∧ fire props (ClarificationsSubmitted oi) s = None.
Proof.
  intros Hp. unfold fire, confirm_import_disabled. rewrite Hp, andb_false_r. auto.
Qed.

(** Each of the three requests raises its flag before it is sent. *)
Lemma flags_raised (s : State) (f : Api.File) :
  file s = Some f →
  (∀ password, uploading (fst (handleUpload_begin password s)) = true)
  ∧ (∀ a b, uploading (fst (handleDateRangeSelect_begin a b s)) = true)
  ∧ (∀ sid c, processingClarifications (fst (handleImport_begin sid c s)) = true).
Proof.
  intros Hf. unfold handleUpload_begin. rewrite Hf. cbn. auto.
Qed.

(** [setClearPrevious] is never called: the setting keeps its initial
    value. *)
Lemma clearPrevious_always_true (props : Props) (s : State) :
  reachable props s → clearPrevious s = true.
Proof.
  induction 1 as [|s e s' eff _ IH Hfire]; [reflexivity|].
  destruct e; unfold_handlers; cbn in Hfire.
  all: split_cases; cbn; congruence.
Qed.

(** The Unlock button and the submit handler of the password dialog do
    not look at the flag. *)
Lemma unlock_ignores_loading (s : State) (f : Api.File) (password : string) :
  file s = Some f →
  JS.trim_truthy password = true →
  PasswordDialog.unlock_disabled (passwordDialog s) password = false
  ∧ PasswordDialog.handleSubmit (passwordDialog s) password = Some password
  ∧ snd (handleUpload_begin (Some password) s)
    = Some (Api.uploadStatement f (Some password) (Some (clearPrevious s))).
Proof.
  intros Hf Hpw.
  unfold PasswordDialog.unlock_disabled, PasswordDialog.handleSubmit, handleUpload_begin.
  rewrite Hpw, Hf. auto.
Qed.

(** C5 fails for the Unlock button.  With the password dialog open and a
    first password submitted, the upload request is outstanding and
    [uploading] is set; it is passed to the dialog as [loading], yet the
    Unlock button is enabled, the dialog is still rendered, and submitting
    again sends the same request a second time. *)
Theorem unlock_enabled_while_uploading :
  let first := handleUpload_begin (Some "secret") Scenario.asking_password in
  let s1 := fst first in
  snd first
    = Some (Api.uploadStatement Scenario.statement (Some "secret") (Some true))
  ∧ uploading s1 = true
  ∧ PasswordDialog.loading (passwordDialog s1) = true
  ∧ PasswordDialog.rendered (passwordDialog s1) = true
  ∧ PasswordDialog.unlock_disabled (passwordDialog s1) "secret" = false
  ∧ PasswordDialog.handleSubmit (passwordDialog s1) "secret" = Some "secret"
  ∧ snd (handleUpload_begin (Some "secret") s1) = snd first.
Proof. vm_compute. repeat split; reflexivity. Qed.

End Invariant.

(** ** The backend protocol *)

Section BackendProtocol.

Import Backend Predicates.

Variable normalize : string → string.

(** What the Range Filter answers depends on the extracted sequence of
    the session only, not on what an earlier call wrote. *)
Lemma select_date_range_reads_transactions (sid : nat) (a b : Z) (st st' : Store) :
  transactions <$> (sessions st !! sid) = transactions <$> (sessions st' !! sid) →
  fst (select_date_range normalize sid a b st)
  = fst (select_date_range normalize sid a b st').
Proof.
  intros Htx. unfold select_date_range.
  destruct (sessions st !! sid) as [sess|], (sessions st' !! sid) as [sess'|];
    cbn in Htx; try discriminate; [|reflexivity].
  inversion Htx as [Heq]. destruct (b <? a); cbn; [reflexivity|].
  rewrite Heq. reflexivity.
Qed.

(** A second call with the same bounds, on the store the first call left. *)
Lemma select_date_range_again (sid : nat) (a b : Z) (st : Store) :
  select_date_range normalize sid a b (snd (select_date_range normalize sid a b st))
  = select_date_range normalize sid a b st.
Proof.
  unfold select_date_range at 2 3.
  destruct (sessions st !! sid) as [sess|] eqn:Hsess.
  - destruct (b <? a) eqn:Hrange; cbn.
    + unfold select_date_range. rewrite Hsess, Hrange. reflexivity.
    + unfold select_date_range. cbn. rewrite lookup_insert_eq, Hrange. cbn.
      rewrite insert_insert_eq. reflexivity.
  - cbn. unfold select_date_range. rewrite Hsess. reflexivity.
Qed.

(** C9: calling [select_date_range] a second time with the same bounds, on
    the store the first call left, returns the same result, with the same
    list of ambiguous items, and leaves that store as it is. *)
Theorem select_date_range_idempotent (sid : nat) (start_date end_date : Z) (st : Store) :
  let first := select_date_range normalize sid start_date end_date st in
  let second := select_date_range normalize sid start_date end_date (snd first) in
  fst second = fst first
  ∧ items_of (fst second) = items_of (fst first)
  ∧ snd second = snd first.
Proof.
  cbv zeta. rewrite select_date_range_again. auto.
Qed.

Lemma run_consumed (sid : nat) (o : op) (st : Store) :
  consumed sid st → consumed sid (run normalize o st).
Proof.
  intros [Hgone Hlt]. unfold consumed, run.
  destruct o as [x ft now | sid' a b | sid' c].
  - destruct x as [txs| |e]; cbn; [|auto|auto].
    split; [|lia]. rewrite lookup_insert_ne by lia. exact Hgone.
  - unfold select_date_range.
    destruct (sessions st !! sid') as [sess|] eqn:Hsess; cbn; [|auto].
    destruct (b <? a); cbn; [auto|].
    split; [|exact Hlt]. rewrite lookup_insert_ne; [exact Hgone | congruence].
  - unfold import_transactions.
    destruct (sessions st !! sid') as [sess|] eqn:Hsess; cbn; [|auto].
    split; [|exact Hlt].
    destruct (decide (sid' = sid)) as [->|Hne];
      [apply lookup_delete_eq | rewrite lookup_delete_ne by exact Hne; exact Hgone].
Qed.

Lemma run_all_consumed (sid : nat) (ops : list op) (st : Store) :
  consumed sid st → consumed sid (run_all normalize ops st).
Proof.
  revert st. induction ops as [|o ops IH]; intros st Hc; [exact Hc|].
  cbn. apply IH, run_consumed, Hc.
Qed.

Lemma run_ids_allocated (o : op) (st : Store) :
  ids_allocated st → ids_allocated (run normalize o st).
Proof.
  intros Hst sid. unfold run.
  destruct o as [x ft now | sid' a b | sid' c].
  - destruct x as [txs| |e]; cbn; [|apply Hst|apply Hst].
    destruct (decide (next_session st = sid)) as [<-|Hne]; [lia|].
    rewrite lookup_insert_ne by exact Hne. intros H. apply Hst in H. lia.
  - unfold select_date_range.
    destruct (sessions st !! sid') as [sess|] eqn:Hsess; cbn; [|apply Hst].
    destruct (b <? a); cbn; [apply Hst|].
    destruct (decide (sid' = sid)) as [->|Hne].
    + intros _. apply Hst. rewrite Hsess. eauto.
    + rewrite lookup_insert_ne by exact Hne. apply Hst.
  - unfold import_transactions.
    destruct (sessions st !! sid') as [sess|] eqn:Hsess; cbn; [|apply Hst].
    destruct (decide (sid' = sid)) as [->|Hne].
    + rewrite lookup_delete_eq. intros [? ?]; discriminate.
    + rewrite lookup_delete_ne by exact Hne. apply Hst.
Qed.

Lemma run_all_ids_allocated (ops : list op) (st : Store) :
  ids_allocated st → ids_allocated (run_all normalize ops st).
Proof.
  revert st. induction ops as [|o ops IH]; intros st Hst; [exact Hst|].
  cbn. apply IH, run_ids_allocated, Hst.
Qed.

Lemma empty_store_ids_allocated : ids_allocated empty_store.
Proof. intros sid [x Hx]. cbn in Hx. rewrite lookup_empty in Hx. discriminate. Qed.

(** C8: once [import_transactions] has succeeded for a session id, the
    session is deleted, and whatever operations follow, every further
    [import_transactions] with that id fails with SessionNotFound and
    leaves the store, its expenses included, unchanged. *)
Theorem import_at_most_once (sid : nat) (clarifications : gmap nat string)
    (st st1 : Store) (r : ImportResult) :
  ids_allocated st →
  import_transactions normalize sid clarifications st = (inr r, st1) →
  sessions st1 !! sid = None
  ∧ ∀ (ops : list op) (clarifications' : gmap nat string),
      let st2 := run_all normalize ops st1 in
      import_transactions normalize sid clarifications' st2 = (inl SessionNotFound, st2)
      ∧ expenses (snd (import_transactions normalize sid clarifications' st2))
        = expenses st2.
Proof.
  intros Hids Himport.
  assert (consumed sid st1) as Hc.
  { unfold import_transactions in Himport.
    destruct (sessions st !! sid) as [sess|] eqn:Hsess; [|discriminate].
    inversion Himport; subst; clear Himport. split; cbn.
    - apply lookup_delete_eq.
    - apply Hids. rewrite Hsess. eauto. }
  split; [apply Hc|]. intros ops clarifications'. cbv zeta.
  destruct (run_all_consumed sid ops st1 Hc) as [Hgone _].
  unfold import_transactions. rewrite Hgone. auto.
Qed.

End BackendProtocol.

Section BackendExample.

Import Backend BackendScenario.

Lemma after_upload_ids_allocated : ids_allocated after_upload.
Proof. apply run_all_ids_allocated, empty_store_ids_allocated. Defined.

Example end_to_end_select :
  (fun r => (index r, merchant r, transaction_count r))
    <$> ambiguous (default (mkSession [] csv 0 [] []) (sessions after_upload !! 0%nat))
  = [(0%nat, "Walmart Groceries", 2%nat)].
Proof. vm_compute. reflexivity. Qed.

Example end_to_end_import :
  counts (fst (import_transactions normalize_id 0%nat groceries after_upload))
  = Some (3%nat, 3%nat)
  ∧ (expense_category <$>
       expenses (snd (import_transactions normalize_id 0%nat groceries after_upload)))
    = ["Groceries"; "Groceries"; "Transport"].
Proof. vm_compute. split; reflexivity. Qed.

Example empty_range_imports_nothing :
  let chosen := select_date_range normalize_id 0%nat 100 200 after_upload in
  items_of (fst chosen) = []
  ∧ counts (fst (import_transactions normalize_id 0%nat ∅ (snd chosen)))
    = Some (0%nat, 0%nat).
Proof. vm_compute. split; reflexivity. Qed.

Example inverted_range_refused :
  fst (select_date_range normalize_id 0%nat 31 1 after_upload) = inl InvalidDateRange
  ∧ fst (select_date_range normalize_id 5%nat 1 31 after_upload) = inl SessionNotFound.
Proof. vm_compute. split; reflexivity. Qed.

Lemma select_date_range_idempotent_witness :
  let first := select_date_range normalize_id 0%nat 1 31 after_upload in
  (fun g => (index g, transaction_count g)) <$> items_of (fst first) = [(0%nat, 2%nat)]
  ∧ items_of (fst (select_date_range normalize_id 0%nat 1 31 (snd first)))
    = items_of (fst first).
Proof.
  cbv zeta. split; [vm_compute; reflexivity|].
  destruct (select_date_range_idempotent normalize_id 0%nat 1 31 after_upload)
    as (_ & Hitems & _).
  exact Hitems.
Defined.

Lemma import_at_most_once_witness :
  let first := import_transactions normalize_id 0%nat groceries after_upload in
  counts (fst first) = Some (3%nat, 3%nat)
  ∧ fst (import_transactions normalize_id 0%nat ∅ (snd first)) = inl SessionNotFound.
Proof.
  cbv zeta. split; [vm_compute; reflexivity|].
  destruct (import_transactions normalize_id 0%nat groceries after_upload)
    as [res st1] eqn:Hrun.
  destruct res as [e|r]; [vm_compute in Hrun; discriminate Hrun|].
  destruct (import_at_most_once normalize_id 0%nat groceries
              after_upload st1 r after_upload_ids_allocated Hrun) as [_ Hagain].
  destruct (Hagain [] ∅) as [Hfail _]. cbn in Hfail. cbn. rewrite Hfail. reflexivity.
Defined.

End BackendExample.

(** * Further properties of the code *)

(** ** The extension test of handleFileChange *)

Section ExtensionTest.

Import UploadView Predicates.

Lemma append_cons (c : ascii) (a b : string) :
  String.append (String c a) b = String c (String.append a b).
Proof. reflexivity. Qed.

Lemma toLowerCase_app (a b : string) :
  JS.toLowerCase (String.append a b)
  = String.append (JS.toLowerCase a) (JS.toLowerCase b).
Proof.
  induction a as [|c a IH]; [reflexivity|].
  rewrite append_cons. cbn [JS.toLowerCase]. now rewrite IH, append_cons.
Qed.

Lemma is_dot_lower_char (c : ascii) : is_dot (JS.lower_char c) = is_dot c.
Proof. destruct c as [[] [] [] [] [] [] [] []]; reflexivity. Qed.

Lemma no_dot_toLowerCase (s : string) : no_dot (JS.toLowerCase s) = no_dot s.
Proof.
  induction s as [|c s IH]; cbn [JS.toLowerCase no_dot]; [reflexivity|].
  now rewrite is_dot_lower_char, IH.
Qed.

Lemma no_dot_app (a b : string) :
  no_dot (String.append a b) = no_dot a && no_dot b.
Proof.
  induction a as [|c a IH]; [reflexivity|].
  rewrite append_cons. cbn [no_dot]. now rewrite IH, andb_assoc.
Qed.

Lemma extension_shaped_dot (e : string) : extension_shaped e → no_dot e = false.
Proof. destruct e as [|c e]; cbn; [tauto|]. intros (-> & _ & _). reflexivity. Qed.

Lemma ends_with_app (p e : string) : Spec.ends_with e (String.append p e) = true.
Proof.
  induction p as [|c p IH].
  - change (String.append EmptyString e) with e.
    destruct e; cbn [Spec.ends_with]; rewrite String.eqb_refl; reflexivity.
  - rewrite append_cons. cbn [Spec.ends_with]. rewrite IH. apply orb_true_r.
Qed.

Lemma match_extension_shape (s e : string) :
  match_extension s = Some e
  ↔ (∃ p, s = String.append p e) ∧ extension_shaped e.
Proof.
  split.
  - induction s as [|c r IH]; cbn [match_extension]; [discriminate|].
    destruct (is_dot c && JS.truthy r && no_dot r) eqn:Hc.
    + intros H. inversion H; subst e; clear H.
      apply andb_prop in Hc as [Hc Hn]. apply andb_prop in Hc as [Hd Ht].
      split; [exists EmptyString; reflexivity | cbn; auto].
    + intros H. destruct (IH H) as [[p ->] Hs].
      split; [exists (String c p); reflexivity | exact Hs].
  - intros [[p ->] Hs]. induction p as [|c p IH].
    + change (String.append EmptyString e) with e.
      destruct e as [|c r]; cbn in Hs; [tauto|].
      destruct Hs as (Hd & Ht & Hn). cbn [match_extension].
      now rewrite Hd, Ht, Hn.
    + rewrite append_cons. cbn [match_extension].
      rewrite no_dot_app, (extension_shaped_dot e Hs).
      rewrite andb_false_r, andb_false_r. exact IH.
Qed.

(** X1: what the regular expression returns.  [match_extension s] is [e]
    exactly when [e] is a suffix of [s] made of a dot followed by one or more
    characters that are not dots: the part of the name from its last dot on,
    provided something follows that dot. *)
Theorem match_extension_last_dot (s e : string) :
  match_extension s = Some e
  ↔ (∃ p, s = String.append p e) ∧ extension_shaped e.
Proof. apply match_extension_shape. Qed.

Lemma match_extension_last_dot_witness :
  match_extension "report.final.pdf" = Some ".pdf".
Proof.
  apply (match_extension_last_dot "report.final.pdf" ".pdf").
  split; [exists "report.final"; reflexivity | repeat split].
Defined.

(** X2: a file whose name ends in one of the accepted extensions, written
    in any mix of upper and lower case and after any prefix (further dots
    included), is stored by [handleFileChange]. *)
Theorem accepted_suffix_stored (p e : string) (size : Z) (s : State) :
  In (JS.toLowerCase e) allowedExtensions →
  file (fst (handleFileChange (Some (Api.mkFile (String.append p e) size)) s))
  = Some (Api.mkFile (String.append p e) size).
Proof.
  intros Hin. unfold handleFileChange. cbn [mbind option_bind Api.name].
  rewrite accepted_iff_spec. unfold Spec.accepted_extension.
  assert (existsb (fun ext => Spec.ends_with ext (JS.toLowerCase (String.append p e)))
            allowedExtensions = true) as Hacc.
  { apply existsb_exists. exists (JS.toLowerCase e). split; [exact Hin|].
    cbn beta. rewrite toLowerCase_app. apply ends_with_app. }
  unfold allowedExtensions in Hacc. rewrite Hacc. reflexivity.
Qed.

Lemma accepted_suffix_stored_witness :
  file (fst (handleFileChange (Some (Api.mkFile "backup.2024.tar.XlSx" 7)) initial))
  = Some (Api.mkFile "backup.2024.tar.XlSx" 7).
Proof.
  apply (accepted_suffix_stored "backup.2024.tar" ".XlSx" 7 initial).
  cbn. auto.
Defined.

(** X3: a file whose name has no dot at all is rejected by
    [handleFileChange], whatever the state: no file is stored and the error
    message is set. *)
Theorem dotless_name_rejected (f : Api.File) (s : State) :
  no_dot (Api.name f) = true →
  file (fst (handleFileChange (Some f) s)) = None
  ∧ error (fst (handleFileChange (Some f) s))
    = "Please select a valid file (CSV, PDF, or Excel)".
Proof.
  intros Hnd. unfold handleFileChange. cbn [mbind option_bind].
  destruct (match_extension (JS.toLowerCase (Api.name f))) as [e|] eqn:He.
  - apply match_extension_shape in He as [[p Hp] Hs].
    apply extension_shaped_dot in Hs.
    rewrite <- no_dot_toLowerCase, Hp, no_dot_app, Hs, andb_false_r in Hnd.
    discriminate.
  - cbn. auto.
Qed.

Lemma dotless_name_rejected_witness :
  file (fst (handleFileChange (Some (Api.mkFile "statement_csv" 7)) initial)) = None.
Proof.
  apply (dotless_name_rejected (Api.mkFile "statement_csv" 7) initial). reflexivity.
Defined.

End ExtensionTest.

(** ** The handlers of the wizard, one by one *)

Section WizardHandlers.

Import UploadView Predicates Progress.

Ltac open_handlers :=
  unfold fire, handleFileChange, handleUpload, handlePasswordSubmit, handleUpload,
    handleUpload_begin, handleUpload_resume, handlePasswordCancel,
    handleDateRangeSelect, handleDateRangeSelect_begin, handleDateRangeSelect_resume,
    handleDateRangeCancel, handleClarificationChange, handleSubmitClarifications,
    handleImport, handleImport_begin, handleImport_resume, handleCancelClarification,
    upload_button_rendered, upload_button_disabled, passwordDialog, dateRangePicker,
    clarification_dialog_rendered, confirm_import_disabled,
    PasswordDialog.rendered, PasswordDialog.handleSubmit,
    DateRangePicker.apply_disabled, DateRangePicker.cancel_disabled,
    DateRangePicker.handleSubmit, seq, upd, emit, skip in *.

Ltac by_cases :=
  repeat match goal with
    | H : Some _ = Some _ |- _ => inversion H; subst; clear H
    | H : None = Some _ |- _ => discriminate H
    | H : (_, _) = (_, _) |- _ => inversion H; subst; clear H
    | H : context [match ?x with _ => _ end] |- _ => destruct x eqn:?; cbn in H
    end.

Ltac read_guards :=
  repeat match goal with
    | H : _ && _ = true |- _ => apply andb_prop in H; destruct H
    | H : _ || _ = false |- _ => apply orb_false_elim in H; destruct H
    | H : bool_decide _ = true |- _ => apply bool_decide_eq_true in H
    | H : is_Some _ |- _ => destruct H as [? H]
    | H : Phase_eqb _ _ = true |- _ => apply Phase_eqb_eq in H
    | H : negb _ = true |- _ => apply negb_true_iff in H
    end.

(** X4: whatever the outcome of its request, a handler lowers the flag it
    raised: [handleUpload] (when a file is selected, so that a request is
    made) and [handleDateRangeSelect] end with [uploading] false, and
    [handleImport] ends with [processingClarifications] false, also when it
    was started by [handleDateRangeSelect]. *)
Theorem loading_flags_lowered (props : Props) (s : State) (f : Api.File) :
  file s = Some f →
  (∀ password o, uploading (fst (handleUpload password o s)) = false)
  ∧ (∀ a b o oi, uploading (fst (handleDateRangeSelect props a b o oi s)) = false)
  ∧ (∀ sid c o, processingClarifications (fst (handleImport props sid c o s)) = false)
  ∧ (∀ a b answer oi, needs_clarification answer = false →
       processingClarifications
         (fst (handleDateRangeSelect props a b (JS.Resolved answer) oi s)) = false).
Proof.
  intros Hf. repeat split.
  - intros password o. unfold handleUpload, handleUpload_begin. rewrite Hf.
    destruct o as [data|err]; cbn; [|reflexivity].
    destruct (String.eqb (status data) "password_required"); [reflexivity|].
    destruct (String.eqb (status data) "extracted"); reflexivity.
  - intros a b o oi. open_handlers.
    destruct o as [answer|err]; cbn; [|reflexivity].
    destruct (needs_clarification answer); cbn; [reflexivity|].
    destruct oi as [data|err]; cbn; [|reflexivity].
    destruct (onUploadComplete props); [destruct (0 <? imported data)|]; reflexivity.
  - intros sid c o. open_handlers.
    destruct o as [data|err]; cbn; [|reflexivity].
    destruct (onUploadComplete props); [destruct (0 <? imported data)|]; reflexivity.
  - intros a b answer oi Hn. open_handlers. rewrite Hn.
    destruct oi as [data|err]; cbn; [|reflexivity].
    destruct (onUploadComplete props); [destruct (0 <? imported data)|]; reflexivity.
Qed.

Lemma loading_flags_lowered_witness :
  uploading
    (fst (handleUpload None (JS.Rejected Scenario.wrong_password) Scenario.selected))
  = false.
Proof.
  destruct (loading_flags_lowered Dashboard_props Scenario.selected Scenario.statement
              eq_refl) as [Hup _].
  apply Hup.
Defined.

(** X5: a rejected request loses nothing.  When the date range request, the
    import started from the clarification dialog, or the import that follows
    an answer without ambiguous items is rejected, the file, the session id,
    the phase, the open dialog, the items and the chosen categories are all
    as before, and the error card shows the message. *)
Theorem rejected_request_keeps_progress (props : Props) (s : State) (err : ApiError) :
  (∀ a b oi,
     let r := handleDateRangeSelect props a b (JS.Rejected err) oi s in
     same_progress s (fst r)
     ∧ error_card (fst r) = Some (errorMessage err "Failed to filter date range")
     ∧ snd r = [Request (Api.selectDateRange (sessionId s) a b)])
  ∧ (let r := handleSubmitClarifications props (JS.Rejected err) s in
     same_progress s (fst r)
     ∧ error_card (fst r) = Some (errorMessage err "Failed to import transactions")
     ∧ snd r = [Request (Api.importTransactions (sessionId s) (Some (clarifications s)))])
  ∧ (∀ a b answer, needs_clarification answer = false →
       let r := handleDateRangeSelect props a b (JS.Resolved answer) (JS.Rejected err) s in
       same_progress s (fst r)
       ∧ error_card (fst r) = Some (errorMessage err "Failed to import transactions")).
Proof.
  unfold same_progress, error_card. split; [|split].
  - intros a b oi. open_handlers. cbn.
    rewrite errorMessage_truthy by reflexivity. repeat split; reflexivity.
  - open_handlers. cbn.
    rewrite errorMessage_truthy by reflexivity. repeat split; reflexivity.
  - intros a b answer Hn. open_handlers. rewrite Hn. cbn.
    rewrite errorMessage_truthy by reflexivity. repeat split; reflexivity.
Qed.

(** X6: an answer to the upload whose status is neither [password_required]
    nor [extracted] is dropped without a trace: one request was sent, nothing
    the wizard has gathered changes, and no error is shown. *)
Theorem unknown_status_ignored (s : State) (f : Api.File) (password : option string)
    (data : UploadResponse) :
  file s = Some f →
  status data ≠ "password_required" →
  status data ≠ "extracted" →
  let r := handleUpload password (JS.Resolved data) s in
  same_progress s (fst r)
  ∧ error_card (fst r) = None
  ∧ PasswordDialog.error_box (passwordDialog (fst r)) = None
  ∧ snd r = [Request (Api.uploadStatement f password (Some (clearPrevious s)))].
Proof.
  intros Hf Hpr Hex. unfold handleUpload, handleUpload_begin. rewrite Hf.
  apply String.eqb_neq in Hpr, Hex. cbn. rewrite Hpr, Hex. cbn.
  unfold same_progress, PasswordDialog.error_box. cbn.
  rewrite andb_false_r. repeat split; reflexivity.
Qed.

Lemma unknown_status_ignored_witness :
  error_card
    (fst (handleUpload None
            (JS.Resolved (mkUploadResponse "error" None None None [])) Scenario.selected))
  = None.
Proof.
  apply (unknown_status_ignored Scenario.selected Scenario.statement None
           (mkUploadResponse "error" None None None []) eq_refl);
    cbn; discriminate.
Defined.

Lemma rejected_request_keeps_progress_witness :
  same_progress Scenario.choosing_range
    (fst (handleDateRangeSelect Dashboard_props "2024-01-05" "2024-01-15"
            (JS.Resolved Scenario.clear_answer) (JS.Rejected Scenario.wrong_password)
            Scenario.choosing_range)).
Proof.
  destruct (rejected_request_keeps_progress Dashboard_props Scenario.choosing_range
              Scenario.wrong_password) as (_ & _ & Hthrough).
  apply (Hthrough "2024-01-05" "2024-01-15" Scenario.clear_answer eq_refl).
Defined.

(** X7: a successful import leaves the wizard ready for the next file: the
    result is kept for display, the clarification dialog is closed, items,
    categories, session id and file are gone, and the phase is [upload].
    The redirect notice is displayed exactly when at least one row was
    imported, and that whether or not a completion callback exists: without
    a callback no timer is set. *)
Theorem import_success_resets (props : Props) (sid : option string)
    (c : gmap Z string) (data : ImportResult) (s : State) :
  let r := handleImport props sid c (JS.Resolved data) s in
  result (fst r) = Some data
  ∧ showClarificationDialog (fst r) = false
  ∧ ambiguousItems (fst r) = []
  ∧ clarifications (fst r) = ∅
  ∧ sessionId (fst r) = None
  ∧ file (fst r) = None
  ∧ uploadPhase (fst r) = phase_upload
  ∧ upload_button_rendered (fst r) = false
  ∧ redirect_notice (fst r) = (0 <? imported data)
  ∧ In ResetFileInput (snd r)
  ∧ requests (snd r) = [Request (Api.importTransactions sid (Some c))]
  ∧ (onUploadComplete props = None →
       snd r = [Request (Api.importTransactions sid (Some c)); ResetFileInput]).
Proof.
  open_handlers. cbn.
  destruct (onUploadComplete props) as [cb|];
    [destruct (0 <? imported data) eqn:Hpos|];
    cbn; rewrite ?Hpos; repeat split; auto; discriminate.
Qed.

Lemma import_success_resets_witness :
  redirect_notice
    (fst (handleImport Dashboard_props (Some "sess-1") ∅ (JS.Resolved Scenario.three_rows)
            Scenario.choosing_range)) = true
  ∧ snd (handleImport Dashboard_props (Some "sess-1") ∅ (JS.Resolved Scenario.three_rows)
           Scenario.choosing_range)
    = [Request (Api.importTransactions (Some "sess-1") (Some ∅)); ResetFileInput].
Proof.
  destruct (import_success_resets Dashboard_props (Some "sess-1") ∅ Scenario.three_rows
              Scenario.choosing_range)
    as (_ & _ & _ & _ & _ & _ & _ & _ & Hnotice & _ & _ & Heff).
  split; [exact Hnotice | exact (Heff eq_refl)].
Defined.

(** X8: [handleImport] never closes the date range picker.  When the answer
    to the range request has no ambiguous items and the import succeeds, the
    picker that started it is still rendered afterwards, no longer loading,
    while the session id is gone; applying a range from it again sends a
    range request whose session id is [null]. *)
Theorem picker_survives_import (props : Props) (s : State) (p : DateRangePicker.Props)
    (a b : string) (answer : SelectResponse) (data : ImportResult) :
  dateRangePicker s = Some p →
  needs_clarification answer = false →
  let s' := fst (handleDateRangeSelect props a b (JS.Resolved answer) (JS.Resolved data) s) in
  dateRangePicker s' = Some (DateRangePicker.mkProps (DateRangePicker.dateRange p) false)
  ∧ sessionId s' = None
  ∧ uploadPhase s' = phase_upload
  ∧ ∀ a' b' o oi,
      hd_error (snd (handleDateRangeSelect props a' b' o oi s'))
      = Some (Request (Api.PostSelectDateRange None a' b')).
Proof.
  intros Hp Hn. open_handlers. rewrite Hn.
  destruct (showDateRangePicker s) eqn:Hshow; [|discriminate].
  destruct (dateRange s) as [dr|] eqn:Hdr; [|discriminate].
  cbn in Hp. inversion Hp; subst p; clear Hp.
  destruct (onUploadComplete props) as [cb|]; [destruct (0 <? imported data)|];
    cbn; rewrite Hshow, Hdr; cbn; repeat split; intros;
    destruct o as [ans|err]; cbn; try reflexivity;
    destruct (needs_clarification ans); cbn; try reflexivity;
    destruct oi as [d|e]; cbn; try reflexivity;
    destruct (0 <? imported d); reflexivity.
Qed.

Lemma picker_survives_import_witness :
  dateRangePicker
    (fst (handleDateRangeSelect Dashboard_props "2024-01-05" "2024-01-15"
            (JS.Resolved Scenario.clear_answer) (JS.Resolved Scenario.three_rows)
            Scenario.choosing_range))
  = Some (DateRangePicker.mkProps Scenario.january false).
Proof.
  apply (picker_survives_import Dashboard_props Scenario.choosing_range
           (DateRangePicker.mkProps Scenario.january false)
           "2024-01-05" "2024-01-15" Scenario.clear_answer Scenario.three_rows
           eq_refl eq_refl).
Defined.

(** ** More of what holds in every reachable state *)

Lemma fire_preserves_one_dialog (props : Props) (e : event) (s s' : State)
    (eff : list effect) :
  wizard_inv s ∧ one_dialog s →
  fire props e s = Some (s', eff) →
  one_dialog s'.
Proof.
  intros [Hinv Hone] Hfire. destruct e; open_handlers; cbn in Hfire.
  all: by_cases.
  all: unfold wizard_inv, one_dialog in *; cbn in *.
  all: read_guards.
  all: repeat match goal with
         | |- context [showPasswordDialog ?x] => destruct (showPasswordDialog x) eqn:?
         | |- context [showDateRangePicker ?x] => destruct (showDateRangePicker x) eqn:?
         | |- context [showClarificationDialog ?x] =>
             destruct (showClarificationDialog x) eqn:?
         end.
  all: cbn in *; intuition congruence.
Qed.

(** X9: in every state the wizard can reach, at most one of its three
    dialogs (password, date range, clarification) is open. *)
Theorem one_dialog_at_a_time (props : Props) (s : State) :
  reachable props s → one_dialog s.
Proof.
  intros Hreach.
  enough (wizard_inv s ∧ one_dialog s) as [_ H] by exact H.
  induction Hreach as [|s e s' eff Hreach IH Hfire].
  - split; [apply wizard_inv_initial | repeat split].
  - split.
    + eapply fire_preserves_inv; [apply IH | exact Hfire].
    + eapply fire_preserves_one_dialog; [exact IH | exact Hfire].
Qed.

Lemma one_dialog_at_a_time_witness : one_dialog Scenario.choosing_range.
Proof.
  apply (one_dialog_at_a_time Dashboard_props Scenario.choosing_range
           (reachable_choosing_range Dashboard_props)).
Defined.



(** X11: no handler changes [clearPrevious], so every upload request the
    wizard sends, from the upload button or from the password dialog, asks
    the server to clear the previously imported data. *)
Theorem wizard_always_clears_previous (props : Props) (e : event) (s s' : State)
    (eff : list effect) :
  reachable props s →
  fire props e s = Some (s', eff) →
  clears_previous eff.
Proof.
  intros Hreach Hfire body Hin.
  apply clearPrevious_always_true in Hreach.
  destruct e; open_handlers; cbn in Hfire.
  all: by_cases.
  all: cbn in Hin.
  all: repeat match goal with
         | H : _ ∨ _ |- _ => destruct H
         | H : False |- _ => destruct H
         | H : Request _ = Request _ |- _ => inversion H; subst; clear H
         | H : ResetFileInput = _ |- _ => discriminate H
         | H : SetTimeout _ _ = _ |- _ => discriminate H
         end.
  all: try discriminate.
  all: rewrite Hreach.
  all: repeat match goal with
         | |- context [JS.truthy ?x] => destruct (JS.truthy x)
         end.
  all: reflexivity.
Qed.

Lemma wizard_always_clears_previous_witness :
  clears_previous
    (snd (handleUpload None (JS.Resolved Scenario.locked) Scenario.selected)).
Proof.
  apply (wizard_always_clears_previous Dashboard_props
           (UploadClicked (JS.Resolved Scenario.locked)) Scenario.selected
           Scenario.asking_password _ (reachable_selected Dashboard_props)).
  reflexivity.
Defined.




(** X13: choosing an accepted file starts over, from any state: the file is
    stored, error and result are cleared, session id, date range, preview,
    items and chosen categories are dropped, all three dialogs are closed and
    the wizard is in the upload state with its upload button rendered; no
    request tells the server that a session was dropped. *)
Theorem accepted_file_starts_over (f : Api.File) (s : State) :
  Spec.accepted_extension (Api.name f) = true →
  let r := handleFileChange (Some f) s in
  file (fst r) = Some f
  ∧ error_card (fst r) = None
  ∧ result (fst r) = None
  ∧ sessionId (fst r) = None
  ∧ dateRange (fst r) = None
  ∧ preview (fst r) = []
  ∧ ambiguousItems (fst r) = []
  ∧ clarifications (fst r) = ∅
  ∧ wizard_state (fst r) = in_upload
  ∧ dateRangePicker (fst r) = None
  ∧ clarification_dialog_rendered (fst r) = false
  ∧ upload_button_rendered (fst r) = true
  ∧ snd r = [].
Proof.
  intros Hacc. unfold handleFileChange. cbn [mbind option_bind].
  rewrite accepted_iff_spec, Hacc. cbn. repeat split; reflexivity.
Qed.

Lemma accepted_file_starts_over_witness :
  sessionId Scenario.choosing_range = Some "sess-1"
  ∧ sessionId (fst (handleFileChange (Some (Api.mkFile "other.csv" 9))
                      Scenario.choosing_range)) = None.
Proof.
  split; [reflexivity|].
  apply (accepted_file_starts_over (Api.mkFile "other.csv" 9) Scenario.choosing_range).
  reflexivity.
Defined.

(** ** The clarification dialog *)

(** X14: a category chosen in the clarification dialog is what the selector
    of that item shows afterwards and what the import request carries for
    its index; the categories of all other indices, and everything else the
    wizard has gathered, stay as they were, and choosing sends nothing. *)
Theorem clarification_change_kept (props : Props) (s : State) (i : Z) (category : string)
    (o : JS.outcome ImportResult ApiError) :
  let s1 := fst (handleClarificationChange i category s) in
  snd (handleClarificationChange i category s) = []
  ∧ clarifications s1 !! i = Some category
  ∧ (∀ j, j ≠ i → clarifications s1 !! j = clarifications s !! j)
  ∧ (∀ item, index item = i → category ≠ EmptyString → selector_value s1 item = category)
  ∧ (∀ item, index item ≠ i → selector_value s1 item = selector_value s item)
  ∧ sessionId s1 = sessionId s
  ∧ ambiguousItems s1 = ambiguousItems s
  ∧ showClarificationDialog s1 = showClarificationDialog s
  ∧ hd_error (snd (handleSubmitClarifications props o s1))
    = Some (Request (Api.PostImportTransactions (sessionId s)
                       (<[i := category]> (clarifications s)))).
Proof.
  cbv zeta. unfold handleClarificationChange, selector_value. cbn.
  split; [reflexivity|]. split; [apply lookup_insert_eq|].
  split; [intros j Hj; apply lookup_insert_ne; congruence|].
  split.
  { intros item <- Hne. rewrite lookup_insert_eq. cbn.
    destruct category; [congruence | reflexivity]. }
  split.
  { intros item Hne. rewrite lookup_insert_ne by congruence. reflexivity. }
  repeat split.
  open_handlers. cbn. destruct o as [data|err]; [|reflexivity].
  destruct (onUploadComplete props); [destruct (0 <? imported data)|]; reflexivity.
Qed.

Lemma clarification_change_kept_witness :
  selector_value
    (fst (handleClarificationChange 0 "Shopping"
            (fst (handleDateRangeSelect Dashboard_props "2024-01-05" "2024-01-15"
                    (JS.Resolved Scenario.ambiguous_answer)
                    (JS.Resolved Scenario.three_rows) Scenario.choosing_range))))
    Scenario.walmart
  = "Shopping".
Proof.
  destruct (clarification_change_kept Dashboard_props
              (fst (handleDateRangeSelect Dashboard_props "2024-01-05" "2024-01-15"
                      (JS.Resolved Scenario.ambiguous_answer)
                      (JS.Resolved Scenario.three_rows) Scenario.choosing_range))
              0 "Shopping" (JS.Resolved Scenario.three_rows))
    as (_ & _ & _ & Hsel & _).
  apply Hsel; [reflexivity | discriminate].
Defined.

(** X15: choices compose as assignments to a map: for one index the last
    choice wins, and choices for different indices can be made in either
    order with the same resulting state. *)
Theorem clarification_changes_compose (s : State) (i j : Z) (c1 c2 : string) :
  fst (handleClarificationChange i c2 (fst (handleClarificationChange i c1 s)))
  = fst (handleClarificationChange i c2 s)
  ∧ (i ≠ j →
     fst (handleClarificationChange j c2 (fst (handleClarificationChange i c1 s)))
     = fst (handleClarificationChange i c1 (fst (handleClarificationChange j c2 s)))).
Proof.
  unfold handleClarificationChange. cbn. split.
  - unfold setClarifications. cbn. rewrite insert_insert_eq. reflexivity.
  - intros Hne. unfold setClarifications. cbn.
    rewrite (insert_insert_ne (clarifications s) i j c1 c2 Hne). reflexivity.
Qed.

Lemma clarification_changes_compose_witness :
  fst (handleClarificationChange 1 "Rent"
         (fst (handleClarificationChange 0 "Bills" initial)))
  = fst (handleClarificationChange 0 "Bills"
           (fst (handleClarificationChange 1 "Rent" initial))).
Proof.
  destruct (clarification_changes_compose initial 0 1 "Bills" "Rent") as [_ Hswap].
  apply Hswap. discriminate.
Defined.

End WizardHandlers.

(** ** The footer of the clarification dialog *)

Section Footer.

Import UploadView UploadViewRender.

Lemma total_from (items : list AmbiguousItem) (acc : Z) :
  fold_left (fun sum item => sum + count_or_one item) items acc
  = acc + total_transactions items.
Proof.
  unfold total_transactions. revert acc.
  induction items as [|x items IH]; intros acc; cbn [fold_left]; [lia|].
  rewrite IH, (IH (0 + count_or_one x)). lia.
Qed.

Lemma total_transactions_cons (x : AmbiguousItem) (items : list AmbiguousItem) :
  total_transactions (x :: items) = count_or_one x + total_transactions items.
Proof. unfold total_transactions at 1. cbn [fold_left]. rewrite total_from. lia. Qed.

Lemma count_or_one_bounds (x : AmbiguousItem) :
  0 ≤ transaction_count x →
  1 ≤ count_or_one x ∧ (1 < count_or_one x ↔ 1 < transaction_count x).
Proof.
  intros Hx. unfold count_or_one.
  destruct (Z.eqb_spec (transaction_count x) 0); lia.
Qed.

Lemma total_bounds (items : list AmbiguousItem) :
  (∀ item, In item items → 0 ≤ transaction_count item) →
  Z.of_nat (length items) ≤ total_transactions items
  ∧ (some_grouped items = true ↔ Z.of_nat (length items) < total_transactions items).
Proof.
  induction items as [|x items IH]; intros Hnn.
  - cbn. split; [lia|]. split; [discriminate | lia].
  - destruct IH as [Hle Hiff]; [intros item Hin; apply Hnn; right; exact Hin|].
    destruct (count_or_one_bounds x (Hnn x (or_introl eq_refl))) as [H1 Hgt].
    rewrite total_transactions_cons. cbn [length some_grouped existsb].
    fold (some_grouped items). rewrite Nat2Z.inj_succ.
    split; [lia|]. rewrite orb_true_iff, Hiff, Z.ltb_lt. lia.
Qed.

(** X16: with transaction counts that are not negative, the total the
    footer shows in parentheses is larger than the number of merchants next
    to it; and when the footer shows no total, the total equals the number of
    merchants. *)
Theorem footer_total_exceeds_merchants (s : State) :
  (∀ item, In item (ambiguousItems s) → 0 ≤ transaction_count item) →
  match footer s with
  | (merchants, Some transactions) => merchants < transactions
  | (merchants, None) => total_transactions (ambiguousItems s) = merchants
  end.
Proof.
  intros Hnn. destruct (total_bounds (ambiguousItems s) Hnn) as [Hle Hiff].
  unfold footer. destruct (some_grouped (ambiguousItems s)) eqn:Hsome.
  - apply Hiff. reflexivity.
  - destruct (Z.lt_ge_cases (Z.of_nat (length (ambiguousItems s)))
                (total_transactions (ambiguousItems s))) as [Hlt|Hge]; [|lia].
    apply Hiff in Hlt. discriminate.
Qed.

Lemma footer_total_exceeds_merchants_witness :
  match footer
          (fst (handleDateRangeSelect Dashboard_props "2024-01-05" "2024-01-15"
                  (JS.Resolved Scenario.clashing_answer) (JS.Resolved Scenario.three_rows)
                  Scenario.choosing_range))
  with
  | (merchants, Some transactions) => merchants < transactions
  | (merchants, None) => False
  end.
Proof.
  pose proof (footer_total_exceeds_merchants
                (fst (handleDateRangeSelect Dashboard_props "2024-01-05" "2024-01-15"
                        (JS.Resolved Scenario.clashing_answer)
                        (JS.Resolved Scenario.three_rows) Scenario.choosing_range)))
    as Hfooter.
  vm_compute in Hfooter. vm_compute. apply Hfooter.
  intros item [<-|[<-|[]]]; discriminate.
Defined.

End Footer.

(** ** The date range picker *)

Section Picker.

Import UploadView DateRangePicker PickerHandlers.

(** X17: the Apply button and [handleSubmit] of the date range picker.  In
    custom mode, when no request is outstanding, the button is enabled
    exactly when [handleSubmit] calls [onSelect], and it passes the two
    custom dates.  In quick mode the button is enabled whenever no request is
    outstanding, but [handleSubmit] calls [onSelect] only if a suggested
    range exists at the selected index. *)
Theorem apply_button_and_submit (p : Props) (l : LocalState) :
  loading p = false →
  (customMode l = true →
     (apply_disabled p l = false ↔ handleSubmit p l = Some (customStart l, customEnd l))
     ∧ (apply_disabled p l = true ↔ handleSubmit p l = None))
  ∧ (customMode l = false →
       apply_disabled p l = false
       ∧ (is_Some (handleSubmit p l)
          ↔ (selectedRangeIndex l < length (suggested_ranges (dateRange p)))%nat)).
Proof.
  intros Hl. unfold apply_disabled, handleSubmit. rewrite Hl. split; intros Hm; rewrite Hm.
  - destruct (JS.truthy (customStart l)), (JS.truthy (customEnd l)); cbn;
      repeat split; congruence.
  - cbn. split; [reflexivity|]. rewrite <- lookup_lt_is_Some.
    destruct (suggested_ranges (dateRange p) !! selectedRangeIndex l);
      split; intros [x Hx]; eauto; discriminate.
Qed.

Lemma apply_button_and_submit_witness :
  handleSubmit (mkProps Scenario.january false) initial
  = Some ("2024-01-05", "2024-01-15").
Proof.
  destruct (apply_button_and_submit (mkProps Scenario.january false) initial eq_refl)
    as [_ Hquick].
  destruct (Hquick eq_refl) as [_ Hsome].
  destruct (proj2 Hsome) as [x Hx]; [cbn; lia|].
  rewrite Hx. vm_compute in Hx. inversion Hx. reflexivity.
Defined.



(** X19: from the picker to the network.  When the picker is rendered and no
    request is outstanding, applying the quick selection of an existing
    suggested range sends a range request for the stored session id with the
    start and end date of that range. *)
Theorem quick_select_request (props : UploadView.Props) (s s' : State) (p : Props)
    (l : LocalState) (i : nat) (r : SuggestedRange)
    (o : JS.outcome SelectResponse ApiError) (oi : JS.outcome ImportResult ApiError)
    (eff : list UploadView.effect) :
  dateRangePicker s = Some p →
  uploading s = false →
  suggested_ranges (dateRange p) !! i = Some r →
  fire props (RangeApplied (handleQuickSelect i l) o oi) s = Some (s', eff) →
  hd_error eff
  = Some (Request (Api.PostSelectDateRange (sessionId s) (start_date r) (end_date r))).
Proof.
  intros Hp Hup Hr Hfire. unfold fire in Hfire. rewrite Hp in Hfire.
  assert (loading p = false) as Hl.
  { unfold dateRangePicker in Hp. destruct (showDateRangePicker s); [|discriminate].
    destruct (UploadView.dateRange s); [|discriminate]. inversion Hp. exact Hup. }
  unfold apply_disabled, handleSubmit, handleQuickSelect in Hfire. cbn in Hfire.
  rewrite Hl, Hr in Hfire. cbn in Hfire. inversion Hfire as [Hrun]; clear Hfire.
  unfold handleDateRangeSelect, handleDateRangeSelect_begin, seq, emit in Hrun.
  destruct (handleDateRangeSelect_resume _ _ _ _ _) as [s2 e2].
  inversion Hrun. reflexivity.
Qed.

Lemma quick_select_request_witness :
  hd_error
    (snd (handleDateRangeSelect Dashboard_props "2024-01-05" "2024-01-15"
            (JS.Resolved Scenario.ambiguous_answer) (JS.Resolved Scenario.three_rows)
            Scenario.choosing_range))
  = Some (Request (Api.PostSelectDateRange (Some "sess-1") "2024-01-05" "2024-01-15")).
Proof.
  apply (quick_select_request Dashboard_props Scenario.choosing_range
           (fst (handleDateRangeSelect Dashboard_props "2024-01-05" "2024-01-15"
                   (JS.Resolved Scenario.ambiguous_answer)
                   (JS.Resolved Scenario.three_rows) Scenario.choosing_range))
           (mkProps Scenario.january false) initial 0
           (mkSuggestedRange "Full range" "2024-01-05" "2024-01-15" 11)
           (JS.Resolved Scenario.ambiguous_answer) (JS.Resolved Scenario.three_rows)
           _ eq_refl eq_refl eq_refl).
  reflexivity.
Defined.

End Picker.

(** ** The axios instance *)

Section Interceptors.

Import ApiClient.

Lemma requestInterceptor_keeps (ls : gmap string string) (c : Config) :
  url (requestInterceptor ls c) = url c ∧ _retry (requestInterceptor ls c) = _retry c.
Proof.
  unfold requestInterceptor.
  destruct (getItem "access_token" ls) as [t|]; [destruct (JS.truthy t)|]; auto.
Qed.

(** One unfolding of [api]. *)
Lemma api_step (fuel : nat) (net : Net) (n : nat) (c : Config) (ls : gmap string string) :
  api (S fuel) net n c ls
  = let config := requestInterceptor ls c in
    match serve net n config with
    | Answered data => Some (Response data, ls, [Sent config])
    | Failed status =>
        if bool_decide (status = Some 401) && negb (_retry config) then
          match getItem "refresh_token" ls with
          | Some refreshToken =>
              if JS.truthy refreshToken then
                match serve_refresh net (bearer refreshToken) with
                | JS.Resolved newAccessToken =>
                    match api fuel net (S n)
                            (setAuthorization (bearer newAccessToken) (markRetry config))
                            (setItem "access_token" newAccessToken ls) with
                    | Some (r, ls', eff) =>
                        Some (r, ls', Sent config :: SentRefresh (bearer refreshToken) :: eff)
                    | None => None
                    end
                | JS.Rejected refreshStatus =>
                    Some (Reject (RefreshError refreshStatus),
                          removeItem "refresh_token" (removeItem "access_token" ls),
                          [Sent config; SentRefresh (bearer refreshToken);
                           Redirect "/login"])
                end
              else
                Some (Reject (RequestError status (markRetry config)), ls,
                      [Sent config; Redirect "/login"])
          | None =>
              Some (Reject (RequestError status (markRetry config)), ls,
                    [Sent config; Redirect "/login"])
          end
        else Some (Reject (RequestError status config), ls, [Sent config])
    end.
Proof. reflexivity. Qed.

(** A request that is already marked is sent once and not retried. *)
Lemma api_marked (fuel : nat) (net : Net) (n : nat) (c : Config) (ls : gmap string string) :
  _retry c = true →
  api (S fuel) net n c ls
  = Some (match serve net n (requestInterceptor ls c) with
          | Answered data => Response data
          | Failed status => Reject (RequestError status (requestInterceptor ls c))
          end, ls, [Sent (requestInterceptor ls c)]).
Proof.
  intros Hm. rewrite api_step. cbv zeta.
  destruct (serve net n (requestInterceptor ls c)) as [data|status]; [reflexivity|].
  destruct (requestInterceptor_keeps ls c) as [_ Hr]. rewrite Hr, Hm, andb_false_r.
  reflexivity.
Qed.

Lemma api_two_steps (fuel : nat) (net : Net) (n : nat) (c : Config) (ls : gmap string string) :
  api (S (S fuel)) net n c ls = api 2 net n c ls.
Proof.
  rewrite (api_step (S fuel)), (api_step 1). cbv zeta.
  destruct (serve net n (requestInterceptor ls c)) as [data|status]; [reflexivity|].
  destruct (bool_decide (status = Some 401) && negb (_retry (requestInterceptor ls c)));
    [|reflexivity].
  destruct (getItem "refresh_token" ls) as [rt|]; [|reflexivity].
  destruct (JS.truthy rt); [|reflexivity].
  destruct (serve_refresh net (bearer rt)) as [new|st]; [|reflexivity].
  rewrite (api_marked fuel), (api_marked 0) by reflexivity. reflexivity.
Qed.

(** X20: a call of the instance always comes to an end, and cheaply: two
    nested calls are enough whatever the network answers, and a call sends
    at least one and at most two requests and at most one token refresh. *)
Theorem api_sends_at_most_twice (fuel : nat) (net : Net) (n : nat) (c : Config)
    (ls : gmap string string) :
  ∃ r ls' eff,
    api (S (S fuel)) net n c ls = Some (r, ls', eff)
    ∧ (1 ≤ count is_sent eff ≤ 2)%nat
    ∧ (count is_refresh eff ≤ 1)%nat
    ∧ (count is_redirect eff ≤ 1)%nat.
Proof.
  rewrite api_two_steps, (api_step 1). cbv zeta.
  destruct (serve net n (requestInterceptor ls c)) as [data|status];
    [do 3 eexists; split; [reflexivity | cbn; lia]|].
  destruct (bool_decide (status = Some 401) && negb (_retry (requestInterceptor ls c)));
    [|do 3 eexists; split; [reflexivity | cbn; lia]].
  destruct (getItem "refresh_token" ls) as [rt|];
    [|do 3 eexists; split; [reflexivity | cbn; lia]].
  destruct (JS.truthy rt); [|do 3 eexists; split; [reflexivity | cbn; lia]].
  destruct (serve_refresh net (bearer rt)) as [new|st];
    [|do 3 eexists; split; [reflexivity | cbn; lia]].
  rewrite (api_marked 0) by reflexivity.
  do 3 eexists; split; [reflexivity | cbn; lia].
Qed.

(** X21: a failure that is not a first 401 leaves everything alone.  When
    the request fails with a status other than 401, without a response, or
    with a 401 on a request already marked as retried, the call is rejected
    with that error after a single request: [localStorage] is unchanged, no
    refresh is attempted and the page is not redirected. *)
Theorem api_plain_failure (net : Net) (n : nat) (c : Config) (ls : gmap string string)
    (status : option Z) :
  serve net n (requestInterceptor ls c) = Failed status →
  status ≠ Some 401 ∨ _retry c = true →
  api 2 net n c ls
  = Some (Reject (RequestError status (requestInterceptor ls c)), ls,
          [Sent (requestInterceptor ls c)]).
Proof.
  intros Hs Hplain. rewrite api_step. cbv zeta. rewrite Hs.
  destruct (requestInterceptor_keeps ls c) as [_ Hr]. rewrite Hr.
  destruct Hplain as [Hne|Hm].
  - rewrite bool_decide_eq_false_2 by exact Hne. reflexivity.
  - rewrite Hm, andb_false_r. reflexivity.
Qed.

Lemma api_plain_failure_witness :
  api 2 (mkNet (fun _ _ => Failed (Some 500)) (fun _ => JS.Rejected None)) 0
      (mkConfig "/api/expenses" ∅ false) {[ "access_token" := "abc" ]}
  = Some (Reject (RequestError (Some 500)
                    (mkConfig "/api/expenses" {[ "Authorization" := "Bearer abc" ]} false)),
          {[ "access_token" := "abc" ]},
          [Sent (mkConfig "/api/expenses" {[ "Authorization" := "Bearer abc" ]} false)]).
Proof.
  rewrite (api_plain_failure _ 0 _ _ (Some 500)); [reflexivity | reflexivity |].
  left. discriminate.
Defined.

(** X22: a failed refresh signs the user out.  When a request not yet
    retried fails with 401, a refresh token is stored, and the refresh call
    is rejected, both tokens are removed from [localStorage] (other keys are
    kept), the page is sent to [/login], the original request is not sent
    again, and the call is rejected with the error of the refresh. *)
Theorem api_refresh_failure (net : Net) (n : nat) (c : Config) (ls : gmap string string)
    (refreshToken : string) (st : option Z) :
  serve net n (requestInterceptor ls c) = Failed (Some 401) →
  _retry c = false →
  getItem "refresh_token" ls = Some refreshToken →
  JS.truthy refreshToken = true →
  serve_refresh net (bearer refreshToken) = JS.Rejected st →
  ∃ ls',
    api 2 net n c ls
    = Some (Reject (RefreshError st), ls',
            [Sent (requestInterceptor ls c); SentRefresh (bearer refreshToken);
             Redirect "/login"])
    ∧ getItem "access_token" ls' = None
    ∧ getItem "refresh_token" ls' = None
    ∧ ∀ k, k ≠ "access_token" → k ≠ "refresh_token" → getItem k ls' = getItem k ls.
Proof.
  intros Hs Hm Hrt Ht Hrf. rewrite api_step. cbv zeta. rewrite Hs.
  destruct (requestInterceptor_keeps ls c) as [_ Hr]. rewrite Hr, Hm.
  rewrite bool_decide_eq_true_2 by reflexivity. cbn [andb negb].
  rewrite Hrt, Ht, Hrf. eexists. split; [reflexivity|].
  unfold getItem, removeItem. split; [|split].
  - rewrite lookup_delete_ne by discriminate. apply lookup_delete_eq.
  - apply lookup_delete_eq.
  - intros k Ha Hb. rewrite !lookup_delete_ne by congruence. reflexivity.
Qed.

Lemma api_refresh_failure_witness :
  ∃ ls',
    api 2 (mkNet (fun _ _ => Failed (Some 401)) (fun _ => JS.Rejected (Some 401))) 0
        (mkConfig "/api/expenses" ∅ false)
        {[ "access_token" := "old"; "refresh_token" := "r1"; "theme" := "dark" ]}
    = Some (Reject (RefreshError (Some 401)), ls',
            [Sent (mkConfig "/api/expenses" {[ "Authorization" := "Bearer old" ]} false);
             SentRefresh "Bearer r1"; Redirect "/login"])
    ∧ getItem "access_token" ls' = None.
Proof.
  edestruct (api_refresh_failure
               (mkNet (fun _ _ => Failed (Some 401)) (fun _ => JS.Rejected (Some 401))) 0
               (mkConfig "/api/expenses" ∅ false)
               {[ "access_token" := "old"; "refresh_token" := "r1"; "theme" := "dark" ]}
               "r1" (Some 401))
    as (ls' & Hrun & Ha & _); [vm_compute; reflexivity..|].
  exists ls'. split; [exact Hrun | exact Ha].
Defined.

(** X23: a successful refresh retries once with the new token.  When a
    request not yet retried fails with 401, a refresh token is stored, and
    the refresh call returns a new access token, that token is stored as
    [access_token] (the refresh token is kept), the same request is sent a
    second time, marked as retried and with [Authorization] set to the new
    bearer token, and whatever that second request yields is the result: its
    data, or its error without any further refresh or redirect. *)
Theorem api_refresh_success (net : Net) (n : nat) (c : Config) (ls : gmap string string)
    (refreshToken newAccessToken : string) :
  serve net n (requestInterceptor ls c) = Failed (Some 401) →
  _retry c = false →
  getItem "refresh_token" ls = Some refreshToken →
  JS.truthy refreshToken = true →
  serve_refresh net (bearer refreshToken) = JS.Resolved newAccessToken →
  ∃ second ls',
    api 2 net n c ls
    = Some (match serve net (S n) second with
            | Answered data => Response data
            | Failed status => Reject (RequestError status second)
            end, ls',
            [Sent (requestInterceptor ls c); SentRefresh (bearer refreshToken); Sent second])
    ∧ url second = url c
    ∧ _retry second = true
    ∧ headers second !! "Authorization" = Some (bearer newAccessToken)
    ∧ (∀ h, h ≠ "Authorization" → headers second !! h = headers c !! h)
    ∧ getItem "access_token" ls' = Some newAccessToken
    ∧ getItem "refresh_token" ls' = Some refreshToken.
Proof.
  intros Hs Hm Hrt Ht Hrf. rewrite api_step. cbv zeta. rewrite Hs.
  destruct (requestInterceptor_keeps ls c) as [Hu Hr]. rewrite Hr, Hm.
  rewrite bool_decide_eq_true_2 by reflexivity. cbn [andb negb].
  rewrite Hrt, Ht, Hrf. rewrite api_marked by reflexivity.
  set (ls1 := setItem "access_token" newAccessToken ls).
  set (retry := setAuthorization (bearer newAccessToken)
                  (markRetry (requestInterceptor ls c))).
  exists (requestInterceptor ls1 retry), ls1.
  split; [reflexivity|].
  destruct (requestInterceptor_keeps ls1 retry) as [Hu2 Hr2].
  split; [rewrite Hu2; exact Hu|]. split; [rewrite Hr2; reflexivity|].
  assert (requestInterceptor ls1 retry = retry
          ∨ requestInterceptor ls1 retry = setAuthorization (bearer newAccessToken) retry)
    as Hsame.
  { unfold requestInterceptor, getItem, ls1, setItem. rewrite lookup_insert_eq.
    destruct (JS.truthy newAccessToken); auto. }
  split; [|split; [|split]].
  - destruct Hsame as [-> | ->]; cbn; apply lookup_insert_eq.
  - intros h Hh.
    assert (headers retry !! h = headers c !! h) as Hretry.
    { unfold retry. cbn. rewrite lookup_insert_ne by congruence.
      unfold requestInterceptor.
      destruct (getItem "access_token" ls) as [t|]; [destruct (JS.truthy t)|]; cbn;
        rewrite ?lookup_insert_ne by congruence; reflexivity. }
    destruct Hsame as [-> | ->]; cbn -[retry];
      rewrite ?lookup_insert_ne by congruence; exact Hretry.
  - unfold getItem, ls1, setItem. apply lookup_insert_eq.
  - unfold getItem, ls1, setItem. rewrite lookup_insert_ne by discriminate. exact Hrt.
Qed.

Lemma api_refresh_success_witness :
  ∃ second ls',
    api 2 (mkNet (fun k _ => match k with O => Failed (Some 401) | _ => Answered "ok" end)
                 (fun _ => JS.Resolved "new")) 0
        (mkConfig "/api/expenses" ∅ false)
        {[ "access_token" := "old"; "refresh_token" := "r1" ]}
    = Some (Response "ok", ls',
            [Sent (mkConfig "/api/expenses" {[ "Authorization" := "Bearer old" ]} false);
             SentRefresh "Bearer r1"; Sent second])
    ∧ headers second !! "Authorization" = Some "Bearer new".
Proof.
  edestruct (api_refresh_success
               (mkNet (fun k _ => match k with O => Failed (Some 401) | _ => Answered "ok" end)
                      (fun _ => JS.Resolved "new")) 0
               (mkConfig "/api/expenses" ∅ false)
               {[ "access_token" := "old"; "refresh_token" := "r1" ]}
               "r1" "new")
    as (second & ls' & Hrun & _ & _ & Hauth & _); [vm_compute; reflexivity..|].
  exists second, ls'. split; [exact Hrun | exact Hauth].
Defined.

Lemma api_without_refresh_token (net : Net) (n : nat) (c : Config) (ls : gmap string string) :
  serve net n (requestInterceptor ls c) = Failed (Some 401) →
  _retry c = false →
  JS.truthy (default EmptyString (getItem "refresh_token" ls)) = false →
  api 2 net n c ls
  = Some (Reject (RequestError (Some 401) (markRetry (requestInterceptor ls c))), ls,
          [Sent (requestInterceptor ls c); Redirect "/login"]).
Proof.
  intros Hs Hm Hrt. rewrite api_step. cbv zeta. rewrite Hs.
  destruct (requestInterceptor_keeps ls c) as [_ Hr]. rewrite Hr, Hm.
  rewrite bool_decide_eq_true_2 by reflexivity. cbn [andb negb].
  destruct (getItem "refresh_token" ls) as [rt|]; [|reflexivity].
  cbn in Hrt. rewrite Hrt. reflexivity.
Qed.

(** X24: without a refresh token there is nothing to refresh.  When a
    request not yet retried fails with 401 and no refresh token is stored
    (or an empty one), the page is sent to [/login] and the call is rejected
    with the original error; [localStorage] is left as it is, the access
    token included, and no refresh call is made. *)
Theorem api_no_refresh_token (net : Net) (n : nat) (c : Config) (ls : gmap string string) :
  serve net n (requestInterceptor ls c) = Failed (Some 401) →
  _retry c = false →
  JS.truthy (default EmptyString (getItem "refresh_token" ls)) = false →
  api 2 net n c ls
  = Some (Reject (RequestError (Some 401) (markRetry (requestInterceptor ls c))), ls,
          [Sent (requestInterceptor ls c); Redirect "/login"]).
Proof. apply api_without_refresh_token. Qed.

Lemma api_no_refresh_token_witness :
  api 2 (mkNet (fun _ _ => Failed (Some 401)) (fun _ => JS.Resolved "new")) 0
      (mkConfig "/api/expenses" ∅ false) {[ "access_token" := "old" ]}
  = Some (Reject (RequestError (Some 401)
                    (mkConfig "/api/expenses" {[ "Authorization" := "Bearer old" ]} true)),
          {[ "access_token" := "old" ]},
          [Sent (mkConfig "/api/expenses" {[ "Authorization" := "Bearer old" ]} false);
           Redirect "/login"]).
Proof.
  rewrite api_no_refresh_token; vm_compute; reflexivity.
Defined.

(** X25: after the dashboard's sign out, requests go out as the caller built
    them, without a bearer token added, and a 401 on such a request sends the
    page to [/login] without a refresh call. *)
Theorem signed_out_requests (ls : gmap string string) (net : Net) (n : nat) (c : Config) :
  let ls' := fst (Dashboard.handleSignOut ls) in
  snd (Dashboard.handleSignOut ls) = "/login"
  ∧ getItem "access_token" ls' = None
  ∧ getItem "refresh_token" ls' = None
  ∧ requestInterceptor ls' c = c
  ∧ (serve net n c = Failed (Some 401) → _retry c = false →
     api 2 net n c ls'
     = Some (Reject (RequestError (Some 401) (markRetry c)), ls',
             [Sent c; Redirect "/login"])).
Proof.
  cbv zeta. unfold Dashboard.handleSignOut. cbn [fst snd].
  set (ls' := removeItem "refresh_token" (removeItem "access_token" ls)).
  assert (getItem "access_token" ls' = None) as Ha.
  { unfold ls', getItem, removeItem.
    rewrite lookup_delete_ne by discriminate. apply lookup_delete_eq. }
  assert (getItem "refresh_token" ls' = None) as Hr.
  { unfold ls', getItem, removeItem. apply lookup_delete_eq. }
  assert (requestInterceptor ls' c = c) as Hreq.
  { unfold requestInterceptor. rewrite Ha. reflexivity. }
  repeat split; auto.
  intros Hs Hm. pose proof (api_without_refresh_token net n c ls') as Hno.
  rewrite Hreq, Hr in Hno. apply Hno; auto.
Qed.

Lemma signed_out_requests_witness :
  requestInterceptor
    (fst (Dashboard.handleSignOut {[ "access_token" := "old"; "refresh_token" := "r1" ]}))
    (mkConfig "/api/expenses" ∅ false)
  = mkConfig "/api/expenses" ∅ false.
Proof.
  apply (signed_out_requests {[ "access_token" := "old"; "refresh_token" := "r1" ]}
           (mkNet (fun _ _ => Failed None) (fun _ => JS.Rejected None)) 0
           (mkConfig "/api/expenses" ∅ false)).
Defined.

End Interceptors.

(** ** The pie chart *)

Section PieChart.

Import AnalyticsView.

(** X26: every cell of the pie chart gets a colour, however many categories
    there are: the index into [COLORS] is always in range, and the colours
    repeat after eight entries. *)
Theorem cell_fill_in_range (index : nat) :
  is_Some (cell_fill index) ∧ cell_fill (index + 8) = cell_fill index.
Proof.
  unfold cell_fill. split.
  - apply lookup_lt_is_Some. apply Nat.mod_upper_bound. discriminate.
  - f_equal. change (length COLORS) with 8%nat.
    rewrite Nat.Div0.add_mod, Nat.Div0.mod_same, Nat.add_0_r, Nat.Div0.mod_mod.
    reflexivity.
Qed.

End PieChart.
